(** * Enhancer for legal databases: [Database/enhance_new_database_template.py]

    A shallow embedding of [enhance_database] and [extract_keywords], and the
    properties of the enhancement transform.

    Data.  The value [json.load] returns is a tree of dicts, lists, strings,
    numbers, booleans and [None]; it is the type [json] below.  A Python
    dict keeps its keys in insertion order and [json.dump] writes them in
    that order, so a dict is an association list, read with [dict_get] and
    written with [dict_set] (an existing key keeps its place, a new key goes
    last).  [json.load] builds a fresh tree, so no two places of the document
    share an object and the in-place updates of the script are functional
    updates of the tree.

    Strings.  A [string] stands for a Python [str] whose code points are
    below U+0100, one [ascii] per code point; [len], [str.split],
    [str.lower] and [repr] are given on that range.

    Errors.  A Python exception that leaves the function is a result [Err]. *)

From Stdlib Require Import ZArith Ascii DecimalString DecimalZ DecimalPos.
From stdpp Require Import base list strings gmap.

(** ** Values *)

Local Set Warnings "-register-all".

(** A float is carried by its [repr], the only observation the script makes
    of it (inside an f-string). *)
Inductive json : Type :=
  | JNull
  | JBool (b : bool)
  | JInt (z : Z)
  | JFloat (repr : string)
  | JStr (s : string)
  | JArr (l : list json)
  | JObj (kv : list (string * json)).

Inductive py_error : Type :=
  | KeyError (key : string)
  | TypeError
  | AttributeError
  | FileNotFoundError.

Inductive result (A : Type) : Type :=
  | Ok (a : A)
  | Err (e : py_error).
Arguments Ok {A} a.
Arguments Err {A} e.

Definition bind {A B} (r : result A) (k : A → result B) : result B :=
  match r with
  | Ok a => k a
  | Err e => Err e
  end.

Notation "'let!' x ':=' r 'in' k" := (bind r (fun x => k))
  (at level 10, x name, r at level 100, k at level 200,
   format "'[v' 'let!'  x  :=  r  'in'  '/' k ']'").

(** A [for] loop whose body rebinds each element (or raises): elements are
    processed from left to right and the first exception ends the loop. *)
Fixpoint for_each {A B} (body : A → result B) (l : list A) : result (list B) :=
  match l with
  | [] => Ok []
  | x :: l' =>
      let! y := body x in
      let! ys := for_each body l' in
      Ok (y :: ys)
  end.

(** ** Dicts *)

Abbreviation dict := (list (string * json)).

(** [d.get(k)] as an option. *)
Fixpoint dict_get (k : string) (d : dict) : option json :=
  match d with
  | [] => None
  | (k', v) :: d' => if decide (k' = k) then Some v else dict_get k d'
  end.

(** [d[k] = v]. *)
Fixpoint dict_set (k : string) (v : json) (d : dict) : dict :=
  match d with
  | [] => [(k, v)]
  | (k', v') :: d' =>
      if decide (k' = k) then (k', v) :: d' else (k', v') :: dict_set k v d'
  end.

(** [d[k]]: a missing key raises [KeyError]. *)
Definition dict_getitem (k : string) (d : dict) : result json :=
  match dict_get k d with
  | Some v => Ok v
  | None => Err (KeyError k)
  end.

(** [d.get(k, default)]. *)
Definition dict_get_default (k : string) (default : json) (d : dict) : json :=
  match dict_get k d with
  | Some v => v
  | None => default
  end.

(** [v[k]] for a string key [k] on any value: only a dict can be
    subscripted by a string. *)
Definition getitem (k : string) (v : json) : result json :=
  match v with
  | JObj d => dict_getitem k d
  | _ => Err TypeError
  end.

(** The characters of a string, each as a string of length one. *)
Fixpoint chars (s : string) : list string :=
  match s with
  | "" => []
  | String c s' => String c "" :: chars s'
  end.

(** [for x in v]: a list gives its elements, a dict its keys, a string its
    characters; nothing else is iterable. *)
Definition py_iter (v : json) : result (list json) :=
  match v with
  | JArr l => Ok l
  | JObj d => Ok (map (fun p => JStr (fst p)) d)
  | JStr s => Ok (map JStr (chars s))
  | _ => Err TypeError
  end.

(** ** [str] and [repr] *)

Definition hex_digit (n : N) : ascii :=
  match n with
  | 0 => "0" | 1 => "1" | 2 => "2" | 3 => "3" | 4 => "4" | 5 => "5"
  | 6 => "6" | 7 => "7" | 8 => "8" | 9 => "9" | 10 => "a" | 11 => "b"
  | 12 => "c" | 13 => "d" | 14 => "e" | _ => "f"
  end%N%char.

(** Code points that [repr] writes as they are: everything but the controls
    (below U+0020, U+007F to U+009F), the no-break space and the soft
    hyphen. *)
Definition is_printable (c : ascii) : bool :=
  let n := N_of_ascii c in
  ((32 <=? n) && (n <? 127) || (161 <=? n) && negb (n =? 173))%N.

Definition backslash : ascii := "092"%char.
Definition squote : ascii := "039"%char.
Definition dquote : ascii := "034"%char.

Definition repr_char (quote c : ascii) : string :=
  if decide (c = quote) then String backslash (String c "")
  else if decide (c = backslash) then String backslash (String backslash "")
  else if decide (c = "009"%char) then String backslash "t"
  else if decide (c = "010"%char) then String backslash "n"
  else if decide (c = "013"%char) then String backslash "r"
  else if is_printable c then String c ""
  else String backslash
         (String "x" (String (hex_digit (N_of_ascii c / 16))
                        (String (hex_digit (N_of_ascii c mod 16)) ""))).

Fixpoint has_char (c : ascii) (s : string) : bool :=
  match s with
  | "" => false
  | String c' s' => if decide (c' = c) then true else has_char c s'
  end.

Fixpoint concat_map_chars (f : ascii → string) (s : string) : string :=
  match s with
  | "" => ""
  | String c s' => f c +:+ concat_map_chars f s'
  end.

(** [repr(s)]: single quotes, unless [s] has a single quote and no double
    quote. *)
Definition repr_str (s : string) : string :=
  let quote : ascii :=
    if has_char squote s && negb (has_char dquote s) then dquote else squote in
  String quote (concat_map_chars (repr_char quote) s) +:+ String quote "".

(** [sep.join(l)] on a list of strings. *)
Fixpoint join (sep : string) (l : list string) : string :=
  match l with
  | [] => ""
  | [x] => x
  | x :: l' => x +:+ sep +:+ join sep l'
  end.

Definition str_int (z : Z) : string := NilZero.string_of_int (Z.to_int z).

Fixpoint py_repr (v : json) : string :=
  match v with
  | JNull => "None"
  | JBool true => "True"
  | JBool false => "False"
  | JInt z => str_int z
  | JFloat r => r
  | JStr s => repr_str s
  | JArr l => "[" +:+ join ", " (map py_repr l) +:+ "]"
  | JObj d =>
      "{" +:+ join ", " (map (fun p => repr_str (fst p) +:+ ": " +:+ py_repr (snd p)) d)
          +:+ "}"
  end.

(** [str(v)], which is what an f-string field [{v}] writes. *)
Definition py_str (v : json) : string :=
  match v with
  | JStr s => s
  | _ => py_repr v
  end.

(** ** Strings: [str.split], [str.lower] *)

(** [c.isspace()]: tab to carriage return, the four separators U+001C to
    U+001F, the space, next line (U+0085) and the no-break space (U+00A0). *)
Definition is_space (c : ascii) : bool :=
  let n := N_of_ascii c in
  ((9 <=? n) && (n <=? 13) || (28 <=? n) && (n <=? 32) || (n =? 133) || (n =? 160))%N.

(** [text.split()] with no argument: runs of whitespace separate the words,
    and no word is empty.  [cur] is the word read so far. *)
Fixpoint split_go (cur : string) (s : string) : list string :=
  match s with
  | "" => if decide (cur = "") then [] else [cur]
  | String c s' =>
      if is_space c
      then (if decide (cur = "") then split_go "" s' else cur :: split_go "" s')
      else split_go (cur +:+ String c "") s'
  end.

Definition py_split (text : string) : list string := split_go "" text.

(** Lower case of one code point: A to Z, and the capital letters U+00C0 to
    U+00DE but for the multiplication sign U+00D7, move up by 32. *)
Definition lower_char (c : ascii) : ascii :=
  let n := N_of_ascii c in
  if ((65 <=? n) && (n <=? 90) || (192 <=? n) && (n <=? 222) && negb (n =? 215))%N
  then ascii_of_N (n + 32)
  else c.

Fixpoint py_lower (s : string) : string :=
  match s with
  | "" => ""
  | String c s' => String (lower_char c) (py_lower s')
  end.

(** ** [extract_keywords] *)

(** [list(set(g))] lists the distinct values of the generator [g] in the
    order of the set's hash table, which changes from one run of the
    interpreter to the next.  The order is a parameter [set_order] of the
    run, from the values in the order [g] yields them to the resulting list;
    all that is known of it is [set_order_ok]. *)
Definition set_order_ok (set_order : list string → list string) : Prop :=
  ∀ l, NoDup (set_order l) ∧ ∀ x, x ∈ set_order l ↔ x ∈ l.

Definition extract_keywords (set_order : list string → list string)
    (text : string) : list string :=
  set_order (map py_lower (filter (fun word => 4 < String.length word) (py_split text))).

(** ** The clock *)

(** The date part of [datetime.now()]. *)
Record datetime : Type := { year : Z; month : Z; day : Z }.

Fixpoint zeros (n : nat) : string :=
  match n with
  | O => ""
  | S n' => String "0" (zeros n')
  end.

Definition zero_pad (width : nat) (s : string) : string :=
  zeros (width - String.length s) +:+ s.

(** [t.strftime('%Y-%m-%d')]. *)
Definition strftime_Ymd (t : datetime) : string :=
  zero_pad 4 (str_int (year t)) +:+ "-" +:+ zero_pad 2 (str_int (month t))
    +:+ "-" +:+ zero_pad 2 (str_int (day t)).

(** A date the clock can show: the year is written with four digits. *)
Definition valid_date (t : datetime) : Prop :=
  (1000 ≤ year t ≤ 9999 ∧ 1 ≤ month t ≤ 12 ∧ 1 ≤ day t ≤ 31)%Z.

(** ** [enhance_database] *)

(** [target[k] = v] for a string key [k]: only a dict takes it. *)
Definition setitem (k : string) (v : json) (target : json) : result json :=
  match target with
  | JObj d => Ok (JObj (dict_set k v d))
  | _ => Err TypeError
  end.

Definition as_str (v : json) : result string :=
  match v with
  | JStr s => Ok s
  | _ => Err TypeError
  end.

(** [sep.join(v)]: [v] must be iterable and each of its items a string. *)
Definition str_join (sep : string) (v : json) : result string :=
  let! items := py_iter v in
  let! strs := for_each as_str items in
  Ok (join sep strs).

(** [text.split()] and so on need a string. *)
Definition keywords_of (set_order : list string → list string) (text : json) : result json :=
  match text with
  | JStr s => Ok (JArr (map JStr (extract_keywords set_order s)))
  | _ => Err AttributeError
  end.

(** The loop body of the inner loop (lines 23 to 27), for one [article] of
    the chapter [chapter] whose id is [chapter_id]. *)
Definition enhance_article (set_order : list string → list string)
    (chapter_id : string) (chapter : dict) (article : json) : result json :=
  match article with
  | JObj a =>
      let! number := dict_getitem "article_number" a in
      let article_id := chapter_id +:+ "_art_" +:+ py_str number in
      let a := dict_set "id" (JStr article_id) a in
      let! content := dict_getitem "content" a in
      let! points := str_join "; " (dict_get_default "points" (JArr []) a) in
      let a := dict_set "fullText" (JStr (py_str content +:+ " " +:+ points)) a in
      let! text := dict_getitem "fullText" a in
      let! keywords := keywords_of set_order text in
      let a := dict_set "keywords" keywords a in
      let! title := dict_getitem "chapter_title" chapter in
      let a := dict_set "tags" (JArr [title]) a in
      Ok (JObj a)
  | _ => Err TypeError
  end.

(** A loop [for x in d.get(k, [])] that updates the dicts [x] in place: when
    [d[k]] is a list, the list then holds the updated elements; the items of
    any other iterable are strings, which the loop body cannot update. *)
Definition store_items (k : string) (items : list json) (d : dict) : dict :=
  match dict_get k d with
  | Some (JArr _) => dict_set k (JArr items) d
  | _ => d
  end.

(** The loop body of the outer loop (lines 20 to 27). *)
Definition enhance_chapter (set_order : list string → list string)
    (chapter : json) : result json :=
  match chapter with
  | JObj c =>
      let! number := dict_getitem "chapter_number" c in
      let chapter_id := "chap_" +:+ py_str number in
      let c := dict_set "id" (JStr chapter_id) c in
      let! articles := py_iter (dict_get_default "articles" (JArr []) c) in
      let! articles := for_each (enhance_article set_order chapter_id c) articles in
      Ok (JObj (store_items "articles" articles c))
  | _ => Err TypeError
  end.

(** Lines 19 to 34: the document between [json.load] and [json.dump]. *)
Definition enhance_data (now : datetime) (set_order : list string → list string)
    (data : json) : result json :=
  match data with
  | JObj d =>
      let! chapters := py_iter (dict_get_default "chapters" (JArr []) d) in
      let! chapters := for_each (enhance_chapter set_order) chapters in
      let d := store_items "chapters" chapters d in
      let d := if dict_get "metadata" d is None then dict_set "metadata" (JObj []) d else d in
      let! metadata := dict_getitem "metadata" d in
      let! metadata := setitem "enhanced" (JBool true) metadata in
      let d := dict_set "metadata" metadata d in
      let! metadata := dict_getitem "metadata" d in
      let! metadata := setitem "last_updated" (JStr (strftime_Ymd now)) metadata in
      Ok (JObj (dict_set "metadata" metadata d))
  | _ => Err AttributeError
  end.

(** The whole function.  The files are a map from paths to the documents
    they hold; the input is read, enhanced, and the result written to the
    output path.  Nothing is written when the transform raises. *)
Definition enhance_database (now : datetime) (set_order : list string → list string)
    (input_path output_path : string) (files : gmap string json)
    : result (gmap string json) :=
  let! data := from_option Ok (Err FileNotFoundError) (files !! input_path) in
  let! data := enhance_data now set_order data in
  Ok (<[output_path := data]> files).

(** ** A sample document *)

Definition sample_article : json :=
  JObj [("article_number", JInt 2); ("content", JStr "This is a test");
        ("points", JArr [JStr "first point"; JStr "second"]);
        ("tags", JArr [JStr "old"])].

Definition sample_chapter : json :=
  JObj [("chapter_number", JInt 3); ("chapter_title", JStr "General Provisions");
        ("articles", JArr [sample_article])].

Definition sample_doc : json := JObj [("chapters", JArr [sample_chapter])].

Definition sample_now : datetime := {| year := 2024; month := 3; day := 7 |}.

(** Two possible orders: the values in the order of the text, each at its
    last occurrence, and the same backwards. *)
Definition dedup (l : list string) : list string := remove_dups l.
Definition dedup_rev (l : list string) : list string := reverse (remove_dups l).

Definition sample_later : datetime := {| year := 2025; month := 11; day := 30 |}.

(** ** Reading the fields of a document *)

(** The chapters of [data] and of [out], one by one, when [data] holds a
    list of chapters. *)
Definition each_chapter (P : json → json → Prop) (data out : json) : Prop :=
  ∀ cs, getitem "chapters" data = Ok (JArr cs) →
    ∃ cs', getitem "chapters" out = Ok (JArr cs') ∧ Forall2 P cs cs'.

(** The articles of the chapter [c] and of its image [c'], one by one. *)
Definition each_article (Q : json → json → Prop) (c c' : json) : Prop :=
  ∀ arts, getitem "articles" c = Ok (JArr arts) →
    ∃ arts', getitem "articles" c' = Ok (JArr arts') ∧ Forall2 Q arts arts'.

(** ** What the claims speak of *)

(** [v[k]] when it is a list, and no elements otherwise. *)
Definition list_field (k : string) (v : json) : list json :=
  match getitem k v with
  | Ok (JArr l) => l
  | _ => []
  end.

Definition has_field (k : string) (v : json) : bool :=
  match getitem k v with
  | Ok _ => true
  | Err _ => false
  end.

Definition is_str (v : json) : bool :=
  match v with
  | JStr _ => true
  | _ => false
  end.

(** The shape of the data model: an article is a record whose [points],
    when it has any, is a list of strings; a chapter is a record whose
    [articles], when it has any, is a list of articles; a document is a
    record whose [chapters], when it has any, is a list of chapters. *)
Definition article_typed (a : json) : bool :=
  match a with
  | JObj d =>
      match dict_get "points" d with
      | None => true
      | Some (JArr ps) => forallb is_str ps
      | Some _ => false
      end
  | _ => false
  end.

Definition chapter_typed (c : json) : bool :=
  match c with
  | JObj d =>
      match dict_get "articles" d with
      | None => true
      | Some (JArr arts) => forallb article_typed arts
      | Some _ => false
      end
  | _ => false
  end.

Definition document_typed (data : json) : bool :=
  match data with
  | JObj d =>
      match dict_get "chapters" d with
      | None => true
      | Some (JArr cs) => forallb chapter_typed cs
      | Some _ => false
      end
  | _ => false
  end.

(** The [metadata] of a document is a mapping or is absent. *)
Definition metadata_typed (data : json) : bool :=
  match data with
  | JObj d =>
      match dict_get "metadata" d with
      | None | Some (JObj _) => true
      | Some _ => false
      end
  | _ => false
  end.

(** The fields that are read without a default: [chapter_number] of every
    chapter, [article_number] and [content] of every article. *)
Definition article_required (a : json) : bool :=
  has_field "article_number" a && has_field "content" a.

Definition chapter_required (c : json) : bool :=
  has_field "chapter_number" c && forallb article_required (list_field "articles" c).

Definition document_required (data : json) : bool :=
  forallb chapter_required (list_field "chapters" data).

(** [chapter_title] is read once per article: a chapter with no article
    need not have it. *)
Definition chapter_titled (c : json) : bool :=
  has_field "chapter_title" c ||
  match list_field "articles" c with [] => true | _ => false end.

(** A document the transform accepts. *)
Definition valid_document (data : json) : bool :=
  document_typed data && metadata_typed data && document_required data &&
  forallb chapter_titled (list_field "chapters" data).

(** The error of reading a field that is not there. *)
Definition missing_key (e : py_error) : Prop :=
  ∃ k, e = KeyError k ∧
    In k ["chapter_number"; "article_number"; "content"; "chapter_title"].

(** The two fields a run leaves in the metadata of its output. *)
Definition metadata_stamped (now : datetime) (out : json) : Prop :=
  ∃ md, getitem "metadata" out = Ok (JObj md) ∧
    dict_get "enhanced" md = Some (JBool true) ∧
    dict_get "last_updated" md = Some (JStr (strftime_Ymd now)).

Definition is_digit (c : ascii) : bool :=
  let n := N_of_ascii c in ((48 <=? n) && (n <=? 57))%N.

(** A full match of four digits, a dash, two digits, a dash, two digits. *)
Definition date_shape (s : string) : bool :=
  match s with
  | String y1 (String y2 (String y3 (String y4 (String d1
      (String m1 (String m2 (String d2 (String a1 (String a2 ""))))))))) =>
      is_digit y1 && is_digit y2 && is_digit y3 && is_digit y4 &&
      bool_decide (d1 = "-"%char) && is_digit m1 && is_digit m2 &&
      bool_decide (d2 = "-"%char) && is_digit a1 && is_digit a2
  | _ => false
  end.

(** Splitting on whitespace, as a relation between a text and its words:
    the text is whitespace, a word, whitespace, a word, and so on, where a
    word is a run of characters that are not whitespace, is not empty, and
    ends at a whitespace character or at the end of the text. *)
Fixpoint all_chars (p : ascii → bool) (s : string) : bool :=
  match s with
  | "" => true
  | String c s' => p c && all_chars p s'
  end.

Definition blank (s : string) : Prop := all_chars is_space s = true.
Definition word (s : string) : Prop :=
  s ≠ "" ∧ all_chars (fun c => negb (is_space c)) s = true.

Inductive tokens : string → list string → Prop :=
  | tokens_blank sp :
      blank sp → tokens sp []
  | tokens_last sp w :
      blank sp → word w → tokens (sp +:+ w) [w]
  | tokens_more sp w c rest ws :
      blank sp → word w → is_space c = true → tokens rest ws →
      tokens (sp +:+ w +:+ String c rest) (w :: ws).

(** Two values of one field of an output, in two runs. *)
Definition same_field (k : string) (x1 x2 : json) : Prop :=
  ∃ v, getitem k x1 = Ok v ∧ getitem k x2 = Ok v.

(** The same list up to its order. *)
Definition same_set_field (k : string) (x1 x2 : json) : Prop :=
  ∃ l1 l2, getitem k x1 = Ok (JArr l1) ∧ getitem k x2 = Ok (JArr l2) ∧ l1 ≡ₚ l2.

Definition same_article_fields (a1 a2 : json) : Prop :=
  same_field "id" a1 a2 ∧ same_field "fullText" a1 a2 ∧
  same_set_field "keywords" a1 a2 ∧ same_set_field "tags" a1 a2.

Definition same_chapter_fields (c1 c2 : json) : Prop :=
  same_field "id" c1 c2 ∧
  Forall2 same_article_fields (list_field "articles" c1) (list_field "articles" c2).

Definition same_derived (out1 out2 : json) : Prop :=
  Forall2 same_chapter_fields (list_field "chapters" out1) (list_field "chapters" out2).

(** ** More sample documents *)

Definition sample_out : json :=
  Eval vm_compute in
    match enhance_data sample_now dedup sample_doc with
    | Ok out => out
    | Err _ => JNull
    end.

(** No [chapters], and a [metadata] that has fields already. *)
Definition sample_bare : json :=
  JObj [("title", JStr "Law on New Topic");
        ("metadata", JObj [("source", JStr "gazette"); ("enhanced", JBool false)])].

(** A chapter with neither [articles] nor [chapter_title]. *)
Definition sample_heading : json := JObj [("chapter_number", JStr "II")].

Definition sample_headings : json :=
  JObj [("chapters", JArr [sample_heading; sample_chapter])].

(** The second article has no [content]. *)
Definition sample_broken : json :=
  JObj [("chapters",
         JArr [JObj [("chapter_number", JInt 1); ("chapter_title", JStr "Scope");
                     ("articles",
                      JArr [sample_article; JObj [("article_number", JInt 3)]])]])].

(** [n] decimal digits. *)
Definition digits (n : nat) (s : string) : bool :=
  Nat.eqb (String.length s) n && all_chars is_digit s.

(** ** Frames and key order *)

(** The fields of [x'] other than those named [ks] read as in [x]. *)
Definition other_fields_kept (ks : list string) (x x' : json) : Prop :=
  ∀ k, k ∉ ks → getitem k x' = getitem k x.

(** The keys of a dict, in the order [json.dump] writes them. *)
Definition keys (d : dict) : list string := map fst d.

Definition keys_of (v : json) : list string :=
  match v with
  | JObj d => keys d
  | _ => []
  end.

(** The keys after an assignment to the key [k]: a key that is there keeps
    its place, a new key goes last. *)
Definition add_key (k : string) (ks : list string) : list string :=
  if decide (k ∈ ks) then ks else ks ++ [k].

(** ** Sample documents with a defect *)

(** A chapter with an article and no [chapter_title]. *)
Definition sample_untitled : json :=
  JObj [("chapters",
         JArr [JObj [("chapter_number", JInt 1); ("articles", JArr [sample_article])]])].

(** The second chapter has no [chapter_number]; the third is no record and
    the metadata no mapping. *)
Definition sample_mixed : json :=
  JObj [("chapters",
         JArr [sample_chapter; JObj [("chapter_title", JStr "Penalties")]; JInt 5]);
        ("metadata", JNull)].

(** Sound chapters, and a metadata that is a list. *)
Definition sample_bad_metadata : json :=
  JObj [("chapters", JArr [sample_chapter]); ("metadata", JArr [JStr "draft"])].


(** A sentence with capitals and repeated words. *)
Definition sample_sentence : string := "The QUICK brown Foxes, the quick foxes!".

(** ** The script entry point (lines 43 to 46) *)

Definition input_path : string := "Database/Law on New Topic.json".
Definition output_path : string := "Database/Enhanced_Law_on_New_Topic.json".


(** * Lemmas *)

Example py_str_samples :
  py_str (JInt 3) = "3" ∧ py_str (JInt (-12)) = "-12" ∧ py_str (JInt 0) = "0" ∧
  py_str (JStr "IV") = "IV" ∧
  py_str (JArr [JStr "ab"; JNull; JObj [("k", JBool true)]])
    = "['ab', None, {'k': True}]" ∧
  py_repr (JStr "it's") = String dquote "it's" +:+ String dquote "" ∧
  py_repr (JStr (String "160" "")) = String squote (String backslash "xa0'").
Proof. repeat split; vm_compute; reflexivity. Qed.

(** The errors of documents that are not of the data model, and the joins
    of [points] that are iterable without being a list. *)
Example enhance_data_ill_typed :
  enhance_data sample_now dedup (JArr []) = Err AttributeError ∧
  enhance_data sample_now dedup (JObj [("metadata", JNull)]) = Err TypeError ∧
  enhance_data sample_now dedup (JObj [("chapters", JArr [JInt 5])]) = Err TypeError ∧
  enhance_data sample_now dedup (JObj [("chapters", JNull)]) = Err TypeError ∧
  enhance_data sample_now dedup (JObj [("chapters", JStr "")])
    = Ok (JObj [("chapters", JStr "");
                ("metadata", JObj [("enhanced", JBool true);
                                   ("last_updated", JStr "2024-03-07")])]) ∧
  str_join "; " (JInt 5) = Err TypeError ∧
  str_join "; " (JArr [JStr "a"; JInt 5]) = Err TypeError ∧
  str_join "; " (JStr "abc") = Ok "a; b; c" ∧
  str_join "; " (JObj [("x", JNull); ("y", JNull)]) = Ok "x; y".
Proof. repeat split; vm_compute; reflexivity. Qed.

Section dict_facts.
Implicit Types (k : string) (v : json) (d : dict).

Lemma dict_get_set_eq k v d : dict_get k (dict_set k v d) = Some v.
Proof.
  induction d as [|[k' v'] d IH]; simpl.
  - by rewrite decide_True.
  - destruct (decide (k' = k)) as [->|Hne]; simpl.
    + by rewrite decide_True.
    + by rewrite decide_False.
Qed.

Lemma dict_get_set_ne k k' v d :
  k ≠ k' → dict_get k' (dict_set k v d) = dict_get k' d.
Proof.
  intros Hne. induction d as [|[k0 v0] d IH]; simpl.
  - by rewrite decide_False.
  - destruct (decide (k0 = k)) as [->|Hk0]; simpl.
    + by rewrite !decide_False.
    + by rewrite IH.
Qed.

Lemma dict_set_set k v v' d : dict_set k v (dict_set k v' d) = dict_set k v d.
Proof.
  induction d as [|[k' v0] d IH]; simpl.
  - by rewrite decide_True.
  - destruct (decide (k' = k)) as [->|Hne]; simpl.
    + by rewrite decide_True.
    + by rewrite decide_False, IH.
Qed.

Lemma dict_getitem_Ok k d v : dict_getitem k d = Ok v ↔ dict_get k d = Some v.
Proof.
  unfold dict_getitem. destruct (dict_get k d); split; intros H; by simplify_eq.
Qed.

Lemma dict_getitem_Err k d e :
  dict_getitem k d = Err e ↔ dict_get k d = None ∧ e = KeyError k.
Proof.
  unfold dict_getitem. destruct (dict_get k d); split.
  - done.
  - by intros [? _].
  - by intros [= <-].
  - by intros [_ ->].
Qed.

Lemma dict_get_store_ne k k' items d :
  k ≠ k' → dict_get k' (store_items k items d) = dict_get k' d.
Proof.
  intros Hne. unfold store_items.
  destruct (dict_get k d) as [[]|]; try done. by apply dict_get_set_ne.
Qed.

Lemma dict_get_store_list k items l d :
  dict_get k d = Some (JArr l) →
  dict_get k (store_items k items d) = Some (JArr items).
Proof. intros H. unfold store_items. rewrite H. apply dict_get_set_eq. Qed.

Lemma store_items_absent k items d :
  dict_get k d = None → store_items k items d = d.
Proof. intros H. unfold store_items. by rewrite H. Qed.
End dict_facts.

Lemma bind_Ok {A B} (r : result A) (f : A → result B) b :
  bind r f = Ok b ↔ ∃ a, r = Ok a ∧ f a = Ok b.
Proof.
  destruct r as [a|e]; simpl; split.
  - by exists a.
  - by intros (? & [= <-] & ?).
  - done.
  - by intros (? & ? & _).
Qed.

Lemma bind_Err {A B} (r : result A) (f : A → result B) e :
  bind r f = Err e ↔ r = Err e ∨ ∃ a, r = Ok a ∧ f a = Err e.
Proof.
  destruct r as [a|e']; simpl; split.
  - intros H. right. by exists a.
  - by intros [?|(? & [= <-] & ?)].
  - intros [= ->]. by left.
  - by intros [[= ->]|(? & ? & _)].
Qed.

Lemma for_each_Ok {A B} (f : A → result B) l l' :
  for_each f l = Ok l' ↔ Forall2 (fun x y => f x = Ok y) l l'.
Proof.
  revert l'. induction l as [|x l IH]; intros l'; simpl.
  - split; [intros [= <-]; constructor | by inversion 1].
  - rewrite bind_Ok. split.
    + intros (y & Hy & H). apply bind_Ok in H as (ys & Hys & [= <-]).
      constructor; [done | by apply IH].
    + inversion 1 as [|? y ? ys Hy Hys]; subst. exists y. split; [done|].
      apply IH in Hys. by rewrite Hys.
Qed.

(** Rewriting the reads that follow writes of other keys. *)
Ltac dict_simpl :=
  repeat first
    [ rewrite dict_get_set_eq
    | rewrite dict_get_set_ne by done
    | rewrite dict_get_store_ne by done ].

Ltac dict_simpl_in H :=
  repeat first
    [ rewrite dict_get_set_eq in H
    | rewrite dict_get_set_ne in H by done
    | rewrite dict_get_store_ne in H by done ].

(** What a successful pass over one article has read and written. *)
Lemma enhance_article_Ok set_order chapter_id chapter article article' :
  enhance_article set_order chapter_id chapter article = Ok article' ↔
  ∃ a number content points title,
    article = JObj a ∧
    dict_get "article_number" a = Some number ∧
    dict_get "content" a = Some content ∧
    str_join "; " (dict_get_default "points" (JArr []) a) = Ok points ∧
    dict_get "chapter_title" chapter = Some title ∧
    article' =
      JObj (dict_set "tags" (JArr [title])
             (dict_set "keywords"
                (JArr (map JStr (extract_keywords set_order
                                   (py_str content +:+ " " +:+ points))))
                (dict_set "fullText" (JStr (py_str content +:+ " " +:+ points))
                   (dict_set "id" (JStr (chapter_id +:+ "_art_" +:+ py_str number)) a)))).
Proof.
  unfold enhance_article. split.
  - destruct article as [| | | | | |a]; try done.
    intros H.
    apply bind_Ok in H as (number & Hn & H). apply dict_getitem_Ok in Hn.
    apply bind_Ok in H as (content & Hc & H). apply dict_getitem_Ok in Hc.
    apply bind_Ok in H as (points & Hp & H).
    apply bind_Ok in H as (text & Ht & H). apply dict_getitem_Ok in Ht.
    apply bind_Ok in H as (keywords & Hk & H).
    apply bind_Ok in H as (title & Hti & H). apply dict_getitem_Ok in Hti.
    dict_simpl_in Hc. dict_simpl_in Ht. unfold dict_get_default in Hp.
    dict_simpl_in Hp. simplify_eq/=.
    exists a, number, content, points, title. split_and!; done.
  - intros (a & number & content & points & title & -> & Hn & Hc & Hp & Hti & ->).
    unfold dict_getitem, dict_get_default in *. dict_simpl. rewrite Hn. simpl.
    dict_simpl. rewrite Hc. simpl. rewrite Hp. simpl.
    dict_simpl. simpl. by rewrite Hti.
Qed.

(** What a successful pass over one chapter has read and written. *)
Lemma enhance_chapter_Ok set_order chapter chapter' :
  enhance_chapter set_order chapter = Ok chapter' ↔
  ∃ c number items items',
    chapter = JObj c ∧
    dict_get "chapter_number" c = Some number ∧
    py_iter (dict_get_default "articles" (JArr []) c) = Ok items ∧
    Forall2 (fun a a' =>
               enhance_article set_order ("chap_" +:+ py_str number)
                 (dict_set "id" (JStr ("chap_" +:+ py_str number)) c) a = Ok a')
      items items' ∧
    chapter' =
      JObj (store_items "articles" items'
              (dict_set "id" (JStr ("chap_" +:+ py_str number)) c)).
Proof.
  unfold enhance_chapter. split.
  - destruct chapter as [| | | | | |c]; try done.
    intros H.
    apply bind_Ok in H as (number & Hn & H). apply dict_getitem_Ok in Hn.
    apply bind_Ok in H as (items & Hi & H).
    apply bind_Ok in H as (items' & Hf & H). apply for_each_Ok in Hf.
    unfold dict_get_default in Hi. dict_simpl_in Hi. simplify_eq/=.
    exists c, number, items, items'. split_and!; done.
  - intros (c & number & items & items' & -> & Hn & Hi & Hf & ->).
    apply for_each_Ok in Hf.
    unfold dict_getitem, dict_get_default in *. rewrite Hn. simpl.
    dict_simpl. rewrite Hi. simpl. by rewrite Hf.
Qed.

(** What a successful run has read and written: the chapters are enhanced
    one by one, and the metadata dict (an empty one when the document has
    none) receives its two fields. *)
Lemma enhance_data_Ok now set_order data out :
  enhance_data now set_order data = Ok out ↔
  ∃ d items items' md,
    data = JObj d ∧
    py_iter (dict_get_default "chapters" (JArr []) d) = Ok items ∧
    Forall2 (fun c c' => enhance_chapter set_order c = Ok c') items items' ∧
    dict_get_default "metadata" (JObj []) d = JObj md ∧
    out =
      JObj (dict_set "metadata"
              (JObj (dict_set "last_updated" (JStr (strftime_Ymd now))
                       (dict_set "enhanced" (JBool true) md)))
              (store_items "chapters" items' d)).
Proof.
  unfold enhance_data. split.
  - destruct data as [| | | | | |d]; try done.
    intros H.
    apply bind_Ok in H as (items & Hi & H).
    apply bind_Ok in H as (items' & Hf & H). apply for_each_Ok in Hf.
    exists d, items, items'.
    unfold dict_get_default. revert H. dict_simpl.
    destruct (dict_get "metadata" d) as [m|] eqn:Hm; simpl; intros H.
    + unfold dict_getitem in H. dict_simpl_in H. rewrite Hm in H. simpl in H.
      destruct m as [| | | | | |md]; try done. simpl in H.
      dict_simpl_in H. simpl in H. rewrite dict_set_set in H.
      exists md. split_and!; try done. by simplify_eq.
    + unfold dict_getitem in H. dict_simpl_in H. simpl in H.
      dict_simpl_in H. simpl in H. rewrite !dict_set_set in H.
      exists []. split_and!; try done. by simplify_eq.
  - intros (d & items & items' & md & -> & Hi & Hf & Hm & ->).
    apply for_each_Ok in Hf. rewrite Hi. simpl. rewrite Hf. simpl.
    unfold dict_get_default in Hm. dict_simpl.
    destruct (dict_get "metadata" d) as [m|] eqn:Hd; subst; simpl.
    + unfold dict_getitem. dict_simpl. rewrite Hd. simpl.
      dict_simpl. simpl. by rewrite dict_set_set.
    + injection Hm as <-. unfold dict_getitem. dict_simpl. simpl.
      dict_simpl. simpl. by rewrite !dict_set_set.
Qed.

(** The chapters of the output are the enhanced chapters of the input. *)
Lemma enhance_data_chapters now set_order data out :
  enhance_data now set_order data = Ok out →
  each_chapter (fun c c' => enhance_chapter set_order c = Ok c') data out.
Proof.
  intros H. apply enhance_data_Ok in H
    as (d & items & items' & md & -> & Hi & Hf & _ & ->).
  intros cs Hcs. simpl in Hcs. apply dict_getitem_Ok in Hcs.
  unfold dict_get_default in Hi. rewrite Hcs in Hi. injection Hi as <-.
  exists items'. split; [|done].
  simpl. apply dict_getitem_Ok. dict_simpl. by eapply dict_get_store_list.
Qed.

(** The articles of an enhanced chapter are the enhanced articles of the
    chapter, each passed the chapter's id and title. *)
Lemma enhance_chapter_articles set_order c c' :
  enhance_chapter set_order c = Ok c' →
  ∃ d number,
    c = JObj d ∧ dict_get "chapter_number" d = Some number ∧
    getitem "id" c' = Ok (JStr ("chap_" +:+ py_str number)) ∧
    getitem "chapter_title" c' = getitem "chapter_title" c ∧
    each_article (fun a a' =>
        enhance_article set_order ("chap_" +:+ py_str number)
          (dict_set "id" (JStr ("chap_" +:+ py_str number)) d) a = Ok a') c c'.
Proof.
  intros H. apply enhance_chapter_Ok in H
    as (d & number & items & items' & -> & Hn & Hi & Hf & ->).
  exists d, number. split_and!; try done.
  - simpl. apply dict_getitem_Ok. by dict_simpl.
  - simpl. unfold dict_getitem. by dict_simpl.
  - intros arts Harts. simpl in Harts. apply dict_getitem_Ok in Harts.
    unfold dict_get_default in Hi. rewrite Harts in Hi. injection Hi as <-.
    exists items'. split; [|done].
    simpl. apply dict_getitem_Ok. eapply dict_get_store_list. by dict_simpl.
Qed.

Lemma each_chapter_impl (P Q : json → json → Prop) data out :
  each_chapter P data out → (∀ c c', P c c' → Q c c') → each_chapter Q data out.
Proof.
  intros HP HPQ cs Hcs. destruct (HP cs Hcs) as (cs' & Hcs' & HF).
  exists cs'. split; [done|]. eapply Forall2_impl; eauto.
Qed.

Lemma each_article_impl (P Q : json → json → Prop) c c' :
  each_article P c c' → (∀ a a', P a a' → Q a a') → each_article Q c c'.
Proof.
  intros HP HPQ arts Harts. destruct (HP arts Harts) as (arts' & Harts' & HF).
  exists arts'. split; [done|]. eapply Forall2_impl; eauto.
Qed.

Lemma for_each_as_str (ps : list string) : for_each as_str (map JStr ps) = Ok ps.
Proof. induction ps as [|p ps IH]; simpl; [done|]. by rewrite IH. Qed.

(** Joining a list of strings. *)
Lemma str_join_strings sep (ps : list string) :
  str_join sep (JArr (map JStr ps)) = Ok (join sep ps).
Proof. unfold str_join. simpl. by rewrite for_each_as_str. Qed.

(** The fields an enhanced article carries. *)
Lemma enhance_article_fields set_order chapter_id chapter a a' :
  enhance_article set_order chapter_id chapter a = Ok a' →
  ∃ d number content points title,
    a = JObj d ∧
    getitem "article_number" a = Ok number ∧
    getitem "content" a = Ok content ∧
    str_join "; " (dict_get_default "points" (JArr []) d) = Ok points ∧
    dict_get "chapter_title" chapter = Some title ∧
    getitem "id" a' = Ok (JStr (chapter_id +:+ "_art_" +:+ py_str number)) ∧
    getitem "fullText" a' = Ok (JStr (py_str content +:+ " " +:+ points)) ∧
    getitem "keywords" a' =
      Ok (JArr (map JStr (extract_keywords set_order
                            (py_str content +:+ " " +:+ points)))) ∧
    getitem "tags" a' = Ok (JArr [title]).
Proof.
  intros H. apply enhance_article_Ok in H
    as (d & number & content & points & title & -> & Hn & Hc & Hp & Ht & ->).
  exists d, number, content, points, title. simpl.
  split_and!; try done; apply dict_getitem_Ok; by dict_simpl.
Qed.

(** ** Loops that fail, loops that succeed *)

Lemma for_each_Err {A B} (f : A → result B) l e :
  for_each f l = Err e → ∃ x, In x l ∧ f x = Err e.
Proof.
  induction l as [|x l IH]; simpl; [done|].
  intros H. apply bind_Err in H as [H|(y & Hy & H)].
  - exists x. auto.
  - apply bind_Err in H as [H|(ys & _ & H)]; [|done].
    destruct (IH H) as (x' & Hin & Hx'). exists x'. auto.
Qed.

Lemma for_each_total {A B} (f : A → result B) l :
  (∀ x, In x l → ∃ y, f x = Ok y) → ∃ l', for_each f l = Ok l'.
Proof.
  induction l as [|x l IH]; simpl; intros H.
  - by exists [].
  - destruct (H x) as [y Hy]; [by left|].
    destruct IH as [l' Hl']; [intros; apply H; by right|].
    exists (y :: l'). by rewrite Hy, Hl'.
Qed.

Lemma Forall2_Ok_In {A B} (f : A → result B) l l' x :
  Forall2 (fun x y => f x = Ok y) l l' → In x l → ∃ y, f x = Ok y.
Proof.
  induction 1 as [|x0 y0 l l' Hxy _ IH]; simpl; [done|].
  intros [->|Hin]; eauto.
Qed.

Lemma forallb_is_str ps : forallb is_str ps = true → ∃ strs, ps = map JStr strs.
Proof.
  induction ps as [|p ps IH]; simpl; intros H.
  - by exists [].
  - apply andb_prop in H as [Hp Hps]. destruct (IH Hps) as [strs ->].
    destruct p; try done. by eexists (_ :: strs).
Qed.

(** The [points] of an article of the data model can be joined. *)
Lemma typed_points d :
  article_typed (JObj d) = true →
  ∃ points, str_join "; " (dict_get_default "points" (JArr []) d) = Ok points.
Proof.
  unfold article_typed, dict_get_default.
  destruct (dict_get "points" d) as [[| | | | |ps|]|]; try done.
  - intros H. apply forallb_is_str in H as [strs ->].
    rewrite str_join_strings. eauto.
  - intros _. by exists "".
Qed.

(** ** Articles, chapters and documents of the data model *)

Lemma enhance_article_typed set_order chapter_id chapter a :
  article_typed a = true →
  match enhance_article set_order chapter_id chapter a with
  | Ok _ => article_required a = true ∧ is_Some (dict_get "chapter_title" chapter)
  | Err e =>
      missing_key e ∧
      (article_required a = false ∨ dict_get "chapter_title" chapter = None)
  end.
Proof.
  destruct a as [| | | | | |d]; try done. intros Ht.
  destruct (typed_points d Ht) as [points Hp].
  unfold enhance_article, article_required, has_field. simpl.
  unfold dict_getitem, dict_get_default in *.
  destruct (dict_get "article_number" d) as [number|] eqn:Hn; simpl.
  2:{ split; [|by left]. exists "article_number". simpl. auto. }
  dict_simpl.
  destruct (dict_get "content" d) as [content|] eqn:Hc; simpl.
  2:{ split; [|by left]. exists "content". simpl. auto. }
  rewrite Hp. simpl. dict_simpl. simpl.
  destruct (dict_get "chapter_title" chapter) as [title|] eqn:Hti; simpl.
  - split; [done|by eexists].
  - split; [|by right]. exists "chapter_title". simpl. auto 6.
Qed.

Lemma chapter_typed_inv c :
  chapter_typed c = true →
  ∃ d, c = JObj d ∧
    py_iter (dict_get_default "articles" (JArr []) d) = Ok (list_field "articles" c) ∧
    (∀ a, In a (list_field "articles" c) → article_typed a = true).
Proof.
  destruct c as [| | | | | |d]; try done. intros Ht. exists d.
  unfold chapter_typed in Ht. unfold list_field, dict_get_default. simpl.
  unfold dict_getitem.
  destruct (dict_get "articles" d) as [[| | | | |arts|]|]; try done.
  split_and!; try done. by apply forallb_forall.
Qed.

Lemma enhance_chapter_typed set_order c :
  chapter_typed c = true →
  match enhance_chapter set_order c with
  | Ok _ => chapter_required c = true ∧ chapter_titled c = true
  | Err e => missing_key e ∧ (chapter_required c = false ∨ chapter_titled c = false)
  end.
Proof.
  intros Ht. destruct (chapter_typed_inv c Ht) as (d & -> & Hi & Harts).
  unfold enhance_chapter, chapter_required, chapter_titled, has_field.
  remember (list_field "articles" (JObj d)) as arts eqn:Earts. simpl.
  unfold dict_getitem.
  destruct (dict_get "chapter_number" d) as [number|] eqn:Hn; simpl.
  2:{ split; [|by left]. exists "chapter_number". simpl. auto. }
  unfold dict_get_default in *. dict_simpl. rewrite Hi. simpl.
  set (cid := "chap_" +:+ py_str number).
  set (c1 := dict_set "id" (JStr cid) d).
  assert (Htitle : dict_get "chapter_title" c1 = dict_get "chapter_title" d).
  { unfold c1. by dict_simpl. }
  destruct (for_each (enhance_article set_order cid c1) arts) as [arts'|e] eqn:Hf; simpl.
  - apply for_each_Ok in Hf. split.
    + apply forallb_forall. intros a Ha.
      destruct (Forall2_Ok_In _ _ _ _ Hf Ha) as [a' Ha'].
      pose proof (enhance_article_typed set_order cid c1 a (Harts a Ha)) as Hty.
      rewrite Ha' in Hty. tauto.
    + destruct arts as [|a arts]; [by rewrite orb_true_r|].
      destruct (Forall2_Ok_In _ _ _ a Hf) as [a' Ha']; [by left|].
      pose proof (enhance_article_typed set_order cid c1 a (Harts a (or_introl eq_refl)))
        as Hty.
      rewrite Ha', Htitle in Hty. destruct Hty as [_ [title Htl]].
      by rewrite Htl.
  - apply for_each_Err in Hf as (a & Ha & Hf).
    pose proof (enhance_article_typed set_order cid c1 a (Harts a Ha)) as Hty.
    rewrite Hf, Htitle in Hty. destruct Hty as [Hmiss Hwhy]. split; [done|].
    destruct Hwhy as [Hreq|Hno].
    + left. apply not_true_is_false. intros Hall.
      rewrite forallb_forall in Hall. specialize (Hall a Ha). congruence.
    + right. rewrite Hno. simpl. by destruct arts.
Qed.

Lemma document_typed_inv data :
  document_typed data = true →
  ∃ d, data = JObj d ∧
    py_iter (dict_get_default "chapters" (JArr []) d) = Ok (list_field "chapters" data) ∧
    (∀ c, In c (list_field "chapters" data) → chapter_typed c = true).
Proof.
  destruct data as [| | | | | |d]; try done. intros Ht. exists d.
  unfold document_typed in Ht. unfold list_field, dict_get_default. simpl.
  unfold dict_getitem.
  destruct (dict_get "chapters" d) as [[| | | | |cs|]|]; try done.
  split_and!; try done. by apply forallb_forall.
Qed.

(** A document of the data model with all the fields that are read is
    enhanced without an error. *)
Lemma enhance_data_valid now set_order data :
  valid_document data = true → ∃ out, enhance_data now set_order data = Ok out.
Proof.
  unfold valid_document. rewrite !andb_true_iff.
  intros [[[Hty Hmd] Hreq] Htitled].
  destruct (document_typed_inv data Hty) as (d & -> & Hi & Hcs).
  unfold document_required in Hreq. rewrite forallb_forall in Hreq, Htitled.
  destruct (for_each_total (enhance_chapter set_order) (list_field "chapters" (JObj d)))
    as [cs' Hcs'].
  { intros c Hc. pose proof (enhance_chapter_typed set_order c (Hcs c Hc)) as H.
    destruct (enhance_chapter set_order c) as [c'|e]; [by eexists|].
    destruct H as [_ [H|H]]; [rewrite Hreq in H|rewrite Htitled in H]; done. }
  apply for_each_Ok in Hcs'.
  assert (∃ md, dict_get_default "metadata" (JObj []) d = JObj md) as [md Hmd'].
  { unfold metadata_typed in Hmd. unfold dict_get_default.
    destruct (dict_get "metadata" d) as [[| | | | | |md]|]; try done; by eexists. }
  eexists. apply enhance_data_Ok. exists d. by eexists _, _, _.
Qed.


(** The chapters of the output of a run on a document of the data model. *)
Lemma enhance_data_list_field now set_order data out :
  document_typed data = true →
  enhance_data now set_order data = Ok out →
  Forall2 (fun c c' => enhance_chapter set_order c = Ok c')
    (list_field "chapters" data) (list_field "chapters" out).
Proof.
  intros Hty H. pose proof (enhance_data_chapters _ _ _ _ H) as Hch.
  destruct data as [| | | | | |d]; try done.
  unfold document_typed in Hty. unfold list_field at 1. simpl.
  unfold dict_getitem.
  destruct (dict_get "chapters" d) as [[| | | | |cs|]|] eqn:Hd; try done.
  - destruct (Hch cs) as (cs' & Hcs' & HF).
    { simpl. by apply dict_getitem_Ok. }
    unfold list_field. by rewrite Hcs'.
  - apply enhance_data_Ok in H as (d' & items & items' & md & [= <-] & Hi & HF & _ & ->).
    unfold dict_get_default in Hi. rewrite Hd in Hi. injection Hi as <-.
    inversion HF; subst. unfold list_field. simpl. unfold dict_getitem.
    dict_simpl. rewrite store_items_absent by done. by rewrite Hd.
Qed.

(** ** The date *)

Lemma digits_in_range lo n width :
  forallb (fun i => digits width (zero_pad width (str_int (lo + Z.of_nat i))))
    (seq 0 n) = true →
  ∀ z, (lo ≤ z < lo + Z.of_nat n)%Z → digits width (zero_pad width (str_int z)) = true.
Proof.
  intros H z Hz. rewrite forallb_forall in H.
  replace z with (lo + Z.of_nat (Z.to_nat (z - lo)))%Z by lia.
  apply H, in_seq. lia.
Qed.

Lemma year_digits y : (1000 ≤ y ≤ 9999)%Z → digits 4 (zero_pad 4 (str_int y)) = true.
Proof.
  intros Hy. apply (digits_in_range 1000 (Z.to_nat 9000)); [vm_compute; reflexivity|lia].
Qed.

Lemma month_day_digits n : (1 ≤ n ≤ 31)%Z → digits 2 (zero_pad 2 (str_int n)) = true.
Proof.
  intros Hn. apply (digits_in_range 1 31); [vm_compute; reflexivity|lia].
Qed.

Lemma date_shape_digits y m d :
  digits 4 y = true → digits 2 m = true → digits 2 d = true →
  date_shape (y +:+ "-" +:+ m +:+ "-" +:+ d) = true.
Proof.
  unfold digits. rewrite !andb_true_iff.
  intros [Hy1 Hy2] [Hm1 Hm2] [Hd1 Hd2].
  destruct y as [|y1 [|y2 [|y3 [|y4 [|]]]]]; try done.
  destruct m as [|m1 [|m2 [|]]]; try done.
  destruct d as [|d1 [|d2 [|]]]; try done.
  simpl in *. rewrite !andb_true_iff in *. tauto.
Qed.

Lemma strftime_Ymd_shape now : valid_date now → date_shape (strftime_Ymd now) = true.
Proof.
  intros (Hy & Hm & Hd). unfold strftime_Ymd.
  apply date_shape_digits; [by apply year_digits|apply month_day_digits; lia..].
Qed.


(** ** A second run *)

Lemma set_order_perm ord1 ord2 (l : list string) :
  set_order_ok ord1 → set_order_ok ord2 → ord1 l ≡ₚ ord2 l.
Proof.
  intros H1 H2. destruct (H1 l) as [Hnd1 Hin1], (H2 l) as [Hnd2 Hin2].
  apply NoDup_Permutation; [done..|].
  intros x. by rewrite Hin1, Hin2.
Qed.

Lemma Forall2_again {A} (f g : A → result A) (R : A → A → Prop) l l1 :
  Forall2 (fun x y => f x = Ok y) l l1 →
  (∀ x y, f x = Ok y → ∃ z, g y = Ok z ∧ R y z) →
  ∃ l2, Forall2 (fun y z => g y = Ok z) l1 l2 ∧ Forall2 R l1 l2.
Proof.
  intros HF Hstep. induction HF as [|x y l l1 Hxy _ (l2 & Hg & HR)].
  - exists []. split; constructor.
  - destruct (Hstep x y Hxy) as (z & Hz & Hyz).
    exists (z :: l2). split; by constructor.
Qed.

(** The items of an iterable that is no list are strings. *)
Lemma py_iter_cases v items :
  py_iter v = Ok items →
  v = JArr items ∨ ((∀ l, v ≠ JArr l) ∧ ∀ x, In x items → ∃ s, x = JStr s).
Proof.
  destruct v as [| | | |s|l|d]; simpl; try done; intros [= <-].
  - right. split; [done|]. intros x Hx. apply in_map_iff in Hx as (? & <- & _). eauto.
  - by left.
  - right. split; [done|]. intros x Hx. apply in_map_iff in Hx as (? & <- & _). eauto.
Qed.

(** A loop [for x in d.get(k, [])] run again on what it left.  [f] is the
    body in the first run and [g] in the second; [D1] is the dict after the
    first run, [D1'] the dict when the second loop starts and [D2] the dict
    after it: only their field [k] matters. *)
Lemma loop_again (k : string) (d0 : dict) (f g : json → result json)
    (R : json → json → Prop) items items' :
  py_iter (dict_get_default k (JArr []) d0) = Ok items →
  Forall2 (fun x y => f x = Ok y) items items' →
  (∀ s y, f (JStr s) ≠ Ok y) →
  (∀ x y, f x = Ok y → ∃ z, g y = Ok z ∧ R y z) →
  ∃ items2,
    Forall2 (fun y z => g y = Ok z) items' items2 ∧
    ∀ D1 : dict, dict_get k D1 = dict_get k (store_items k items' d0) →
      py_iter (dict_get_default k (JArr []) D1) = Ok items' ∧
      ∀ D1' D2 : dict,
        dict_get k D1' = dict_get k D1 →
        dict_get k D2 = dict_get k (store_items k items2 D1') →
        Forall2 R (list_field k (JObj D1)) (list_field k (JObj D2)).
Proof.
  intros Hi HF Hstr Hstep.
  destruct (Forall2_again f g R items items' HF Hstep) as (items2 & Hg & HR).
  exists items2. split; [done|].
  unfold dict_get_default in Hi.
  destruct (dict_get k d0) as [v|] eqn:Hk.
  - pose proof Hi as Hi'. apply py_iter_cases in Hi as [->|[Hv Hitems]].
    + intros D1 HD1. erewrite dict_get_store_list in HD1 by done.
      unfold dict_get_default. rewrite HD1. split; [done|].
      intros D1' D2 HD1' HD2.
      erewrite dict_get_store_list in HD2 by done.
      unfold list_field. simpl. unfold dict_getitem. by rewrite HD1, HD2.
    + assert (items = []) as ->.
      { destruct HF as [|x y ? ? Hxy _]; [done|].
        destruct (Hitems x) as [s ->]; [by left|]. by apply Hstr in Hxy. }
      inversion HF; subst. inversion Hg; subst.
      assert (Hst : ∀ D l, dict_get k D = Some v → store_items k l D = D).
      { intros D l HD. unfold store_items. rewrite HD.
        destruct v as [| | | | |l0|]; try done. by destruct (Hv l0). }
      intros D1 HD1. rewrite Hst, Hk in HD1 by done.
      unfold dict_get_default. rewrite HD1.
      split; [done|].
      intros D1' D2 HD1' HD2.
      rewrite Hst, HD1' in HD2 by done.
      unfold list_field. simpl. unfold dict_getitem. rewrite HD1, HD2.
      destruct v as [| | | | |l|]; try constructor. by destruct (Hv l).
  - injection Hi as <-. inversion HF; subst. inversion Hg; subst.
    intros D1 HD1. rewrite store_items_absent, Hk in HD1 by done.
    unfold dict_get_default. rewrite HD1. split; [done|].
    intros D1' D2 HD1' HD2.
    rewrite store_items_absent, HD1' in HD2 by done.
    unfold list_field. simpl. unfold dict_getitem. rewrite HD1, HD2. constructor.
Qed.

(** An enhanced article enhanced again, in a later run with another order
    of the keywords. *)
Lemma enhance_article_again ord1 ord2 chapter_id chapter chapter' a a1 :
  set_order_ok ord1 → set_order_ok ord2 →
  dict_get "chapter_title" chapter' = dict_get "chapter_title" chapter →
  enhance_article ord1 chapter_id chapter a = Ok a1 →
  ∃ a2, enhance_article ord2 chapter_id chapter' a1 = Ok a2 ∧
        same_article_fields a1 a2.
Proof.
  intros Hord1 Hord2 Htitle H. apply enhance_article_Ok in H
    as (d & number & content & points & title & -> & Hn & Hc & Hp & Ht & ->).
  eexists. split.
  - apply enhance_article_Ok. eexists _, number, content, points, title.
    split_and!; [reflexivity|by dict_simpl..| |by rewrite Htitle|reflexivity].
    unfold dict_get_default in *. by dict_simpl.
  - unfold same_article_fields, same_field, same_set_field. simpl.
    unfold dict_getitem. split_and!.
    + eexists. dict_simpl. by split.
    + eexists. dict_simpl. by split.
    + eexists _, _. dict_simpl. split_and!; [done..|].
      apply fmap_Permutation. by apply set_order_perm.
    + eexists _, _. dict_simpl. by split_and!.
Qed.

(** An enhanced chapter enhanced again. *)
Lemma enhance_chapter_again ord1 ord2 c c1 :
  set_order_ok ord1 → set_order_ok ord2 →
  enhance_chapter ord1 c = Ok c1 →
  ∃ c2, enhance_chapter ord2 c1 = Ok c2 ∧ same_chapter_fields c1 c2.
Proof.
  intros Hord1 Hord2 H. apply enhance_chapter_Ok in H
    as (d & number & items & items' & -> & Hn & Hi & HF & ->).
  set (cid := "chap_" +:+ py_str number) in *.
  set (c0 := dict_set "id" (JStr cid) d) in *.
  set (D1 := store_items "articles" items' c0).
  assert (Hid : dict_get "id" D1 = Some (JStr cid)).
  { unfold D1, c0. by dict_simpl. }
  destruct (loop_again "articles" c0
              (enhance_article ord1 cid c0)
              (enhance_article ord2 cid (dict_set "id" (JStr cid) D1))
              same_article_fields items items') as (items2 & Hg & Hloop).
  - unfold dict_get_default in *. unfold c0. by dict_simpl.
  - done.
  - done.
  - intros a a1. apply enhance_article_again; [done..|].
    unfold D1, c0. by dict_simpl.
  - destruct (Hloop D1 eq_refl) as [Hiter Hfields].
    eexists. split.
    + apply enhance_chapter_Ok. exists D1, number, items', items2.
      split_and!; [done| |done|done|reflexivity].
      unfold D1, c0. by dict_simpl.
    + split.
      * exists (JStr cid). simpl. unfold dict_getitem. dict_simpl.
        by rewrite Hid.
      * apply (Hfields (dict_set "id" (JStr cid) D1)); [by dict_simpl|done].
Qed.


(** ** Words *)

Lemma app_cons c s t : String c s +:+ t = String c (s +:+ t).
Proof. reflexivity. Qed.

Lemma app_nil_r s : s +:+ "" = s.
Proof. induction s as [|c s IH]; [done|]. by rewrite app_cons, IH. Qed.

Lemma app_assoc s t u : (s +:+ t) +:+ u = s +:+ t +:+ u.
Proof. induction s as [|c s IH]; [done|]. by rewrite !app_cons, IH. Qed.

Lemma all_chars_app p s t : all_chars p (s +:+ t) = all_chars p s && all_chars p t.
Proof.
  induction s as [|c s IH]; [done|].
  rewrite app_cons. simpl. by rewrite IH, andb_assoc.
Qed.

Lemma word_snoc cur c :
  cur = "" ∨ word cur → is_space c = false → word (cur +:+ String c "").
Proof.
  intros Hcur Hc. split.
  - intros H. by destruct cur.
  - rewrite all_chars_app. simpl. rewrite Hc. simpl.
    destruct Hcur as [->|[_ H]]; [done|]. by rewrite H.
Qed.

Lemma tokens_lead c s ws : is_space c = true → tokens s ws → tokens (String c s) ws.
Proof.
  intros Hc Hs.
  assert (Hsp : ∀ sp, blank sp → blank (String c sp)).
  { intros sp Hsp. unfold blank in *. simpl. by rewrite Hc, Hsp. }
  destruct Hs as [sp H|sp w H Hw|sp w c' rest ws H Hw Hc' Hrest].
  - apply tokens_blank. auto.
  - rewrite <- app_cons. apply tokens_last; auto.
  - rewrite <- app_cons. apply tokens_more; auto.
Qed.

(** [split_go] reads the words of the text off, [cur] being the start of
    the first one. *)
Lemma split_go_tokens cur s :
  cur = "" ∨ word cur → tokens (cur +:+ s) (split_go cur s).
Proof.
  revert cur. induction s as [|c s IH]; intros cur Hcur; simpl.
  - rewrite app_nil_r. destruct (decide (cur = "")) as [->|Hne].
    + by apply tokens_blank.
    + destruct Hcur as [?|Hw]; [done|]. by apply (tokens_last "").
  - destruct (is_space c) eqn:Hc.
    + destruct (decide (cur = "")) as [->|Hne].
      * apply tokens_lead; [done|]. apply (IH ""). by left.
      * destruct Hcur as [?|Hw]; [done|].
        apply (tokens_more ""); [done..|]. apply (IH ""). by left.
    + replace (cur +:+ String c s) with ((cur +:+ String c "") +:+ s)
        by (by rewrite app_assoc).
      apply IH. right. by apply word_snoc.
Qed.

Lemma split_go_blank sp t : blank sp → split_go "" (sp +:+ t) = split_go "" t.
Proof.
  unfold blank. induction sp as [|c sp IH]; [done|].
  rewrite app_cons. simpl. intros H. apply andb_prop in H as [Hc Hsp].
  rewrite Hc. simpl. auto.
Qed.

Lemma split_go_word cur w t :
  all_chars (fun c => negb (is_space c)) w = true →
  split_go cur (w +:+ t) = split_go (cur +:+ w) t.
Proof.
  revert cur. induction w as [|c w IH]; intros cur; simpl.
  - by rewrite app_nil_r.
  - intros H. apply andb_prop in H as [Hc Hw]. apply negb_true_iff in Hc.
    rewrite Hc, IH by done. by rewrite app_assoc.
Qed.

(** The words of a text are what [py_split] returns, and nothing else. *)
Lemma py_split_tokens text ws : tokens text ws ↔ py_split text = ws.
Proof.
  split.
  - unfold py_split. induction 1 as [sp H|sp w H [Hne Hw]|sp w c rest ws H [Hne Hw] Hc _ IH].
    + rewrite <- (app_nil_r sp), split_go_blank by done. done.
    + rewrite split_go_blank by done.
      rewrite <- (app_nil_r w) at 1. rewrite split_go_word by done.
      change ("" +:+ w) with w. simpl. by rewrite decide_False.
    + rewrite split_go_blank by done. rewrite split_go_word by done.
      change ("" +:+ w) with w. simpl.
      rewrite Hc. by rewrite decide_False, IH.
  - intros <-. apply (split_go_tokens ""). by left.
Qed.

Lemma dedup_ok : set_order_ok dedup.
Proof.
  intros l. split; [apply NoDup_remove_dups|]. intros x. apply elem_of_remove_dups.
Qed.

Lemma dedup_rev_ok : set_order_ok dedup_rev.
Proof.
  intros l. unfold dedup_rev. split.
  - rewrite reverse_Permutation. apply NoDup_remove_dups.
  - intros x. rewrite elem_of_reverse. apply elem_of_remove_dups.
Qed.


(** * The claims *)

(** Claim C1.  After a run, every chapter of the input document carries an
    [id] that is the prefix [chap_] followed by its [chapter_number] as [str]
    writes it; a chapter numbered 3 (as a number or as the string) gets the
    id [chap_3]. *)
Theorem chapter_id_spec now set_order data out :
  enhance_data now set_order data = Ok out →
  each_chapter (fun c c' =>
      ∃ number,
        getitem "chapter_number" c = Ok number ∧
        getitem "id" c' = Ok (JStr ("chap_" +:+ py_str number)) ∧
        (number = JInt 3 ∨ number = JStr "3" →
         getitem "id" c' = Ok (JStr "chap_3")))
    data out.
Proof.
  intros H. eapply each_chapter_impl; [by eapply enhance_data_chapters|].
  intros c c' Hc. simpl in Hc.
  apply enhance_chapter_articles in Hc as (d & number & -> & Hn & Hid & _).
  exists number. split_and!.
  - simpl. by apply dict_getitem_Ok.
  - done.
  - by intros [->| ->].
Qed.

Lemma chapter_id_spec_witness :
  enhance_data sample_now dedup sample_doc = Ok sample_out ∧
  each_chapter (fun c c' =>
      ∃ number,
        getitem "chapter_number" c = Ok number ∧
        getitem "id" c' = Ok (JStr ("chap_" +:+ py_str number)) ∧
        (number = JInt 3 ∨ number = JStr "3" →
         getitem "id" c' = Ok (JStr "chap_3")))
    sample_doc sample_out.
Proof.
  split; [vm_compute; reflexivity|].
  apply (chapter_id_spec sample_now dedup). vm_compute. reflexivity.
Defined.

(** Claim C2.  After a run, every article of every chapter carries an [id]
    that is the chapter's derived id, then [_art_], then its
    [article_number]; article 2 of the chapter [chap_3] gets
    [chap_3_art_2]. *)
Theorem article_id_spec now set_order data out :
  enhance_data now set_order data = Ok out →
  each_chapter (fun c c' =>
      ∃ chapter_id,
        getitem "id" c' = Ok (JStr chapter_id) ∧
        each_article (fun a a' =>
            ∃ number,
              getitem "article_number" a = Ok number ∧
              getitem "id" a' = Ok (JStr (chapter_id +:+ "_art_" +:+ py_str number)) ∧
              (chapter_id = "chap_3" → number = JInt 2 ∨ number = JStr "2" →
               getitem "id" a' = Ok (JStr "chap_3_art_2")))
          c c')
    data out.
Proof.
  intros H. eapply each_chapter_impl; [by eapply enhance_data_chapters|].
  intros c c' Hc. simpl in Hc.
  apply enhance_chapter_articles in Hc as (d & cn & -> & Hn & Hid & _ & Harts).
  exists ("chap_" +:+ py_str cn). split; [done|].
  eapply each_article_impl; [exact Harts|].
  intros a a' Ha. simpl in Ha.
  apply enhance_article_fields in Ha
    as (da & number & content & points & title & -> & Han & _ & _ & _ & Haid & _).
  exists number. split_and!; try done.
  intros Hcid [->| ->]; by rewrite Haid, Hcid.
Qed.

Lemma article_id_spec_witness :
  enhance_data sample_now dedup sample_doc = Ok sample_out ∧
  each_chapter (fun c c' =>
      ∃ chapter_id,
        getitem "id" c' = Ok (JStr chapter_id) ∧
        each_article (fun a a' =>
            ∃ number,
              getitem "article_number" a = Ok number ∧
              getitem "id" a' = Ok (JStr (chapter_id +:+ "_art_" +:+ py_str number)) ∧
              (chapter_id = "chap_3" → number = JInt 2 ∨ number = JStr "2" →
               getitem "id" a' = Ok (JStr "chap_3_art_2")))
          c c')
    sample_doc sample_out.
Proof.
  split; [vm_compute; reflexivity|].
  apply (article_id_spec sample_now dedup). vm_compute. reflexivity.
Defined.

(** Claim C3.  After a run, the [fullText] of every article is its [content],
    one space, and its [points] joined with a semicolon and a space; an
    article with no [points], or with an empty list, gets its [content] and
    the space. *)
Theorem fullText_spec now set_order data out :
  enhance_data now set_order data = Ok out →
  each_chapter (fun c c' =>
      each_article (fun a a' =>
          ∃ content,
            getitem "content" a = Ok content ∧
            (∀ s, content = JStr s → py_str content = s) ∧
            (∀ ps, getitem "points" a = Ok (JArr (map JStr ps)) →
               getitem "fullText" a' =
                 Ok (JStr (py_str content +:+ " " +:+ join "; " ps))) ∧
            (getitem "points" a = Err (KeyError "points") ∨
             getitem "points" a = Ok (JArr []) →
               getitem "fullText" a' = Ok (JStr (py_str content +:+ " "))) ∧
            (content = JStr "This is a test" →
             getitem "points" a = Ok (JArr [JStr "first point"; JStr "second"]) →
               getitem "fullText" a' =
                 Ok (JStr "This is a test first point; second")))
        c c')
    data out.
Proof.
  intros H. eapply each_chapter_impl; [by eapply enhance_data_chapters|].
  intros c c' Hc. simpl in Hc.
  apply enhance_chapter_articles in Hc as (d & cn & -> & _ & _ & _ & Harts).
  eapply each_article_impl; [exact Harts|].
  intros a a' Ha. simpl in Ha.
  apply enhance_article_fields in Ha
    as (da & number & content & points & title & -> & _ & Hc & Hp & _ & _ & Hft & _).
  exists content. simpl. unfold dict_get_default in Hp.
  assert (Hlist : ∀ ps, dict_getitem "points" da = Ok (JArr (map JStr ps)) →
            getitem "fullText" a' =
              Ok (JStr (py_str content +:+ " " +:+ join "; " ps))).
  { intros ps Hps. apply dict_getitem_Ok in Hps. rewrite Hps in Hp.
    rewrite str_join_strings in Hp. by simplify_eq. }
  split_and!; try done.
  - by intros s ->.
  - intros [Habs|Hnil].
    + apply dict_getitem_Err in Habs as [Habs _]. rewrite Habs in Hp.
      vm_compute in Hp. by simplify_eq.
    + by apply (Hlist []).
  - intros -> Hps. by apply (Hlist ["first point"; "second"]).
Qed.

Lemma fullText_spec_witness :
  enhance_data sample_now dedup sample_doc = Ok sample_out ∧
  each_chapter (fun c c' =>
      each_article (fun a a' =>
          ∃ content,
            getitem "content" a = Ok content ∧
            (∀ s, content = JStr s → py_str content = s) ∧
            (∀ ps, getitem "points" a = Ok (JArr (map JStr ps)) →
               getitem "fullText" a' =
                 Ok (JStr (py_str content +:+ " " +:+ join "; " ps))) ∧
            (getitem "points" a = Err (KeyError "points") ∨
             getitem "points" a = Ok (JArr []) →
               getitem "fullText" a' = Ok (JStr (py_str content +:+ " "))) ∧
            (content = JStr "This is a test" →
             getitem "points" a = Ok (JArr [JStr "first point"; JStr "second"]) →
               getitem "fullText" a' =
                 Ok (JStr "This is a test first point; second")))
        c c')
    sample_doc sample_out.
Proof.
  split; [vm_compute; reflexivity|].
  apply (fullText_spec sample_now dedup). vm_compute. reflexivity.
Defined.

(** Claim C4.  [extract_keywords] returns, in the order of the set and
    without duplicates, the lower case of the words of the text that are
    longer than 4 characters; the words are what splitting on whitespace
    gives, punctuation included.  On the sample sentence the keywords are
    [first], [point;] and [second]. *)
Theorem extract_keywords_spec set_order text :
  set_order_ok set_order →
  NoDup (extract_keywords set_order text) ∧
  (∀ k, k ∈ extract_keywords set_order text ↔
        ∃ w, w ∈ py_split text ∧ 4 < String.length w ∧ k = py_lower w) ∧
  tokens text (py_split text) ∧
  (∀ ws, tokens text ws → ws = py_split text) ∧
  list_to_set (extract_keywords set_order "This is a test first point; second")
    = ({["first"; "point;"; "second"]} : gset string).
Proof.
  intros Hord. unfold extract_keywords. split_and!.
  - apply Hord.
  - intros k. destruct (Hord (map py_lower
      (filter (fun word => 4 < String.length word) (py_split text)))) as [_ ->].
    rewrite list_elem_of_fmap. split.
    + intros (w & -> & Hw). apply list_elem_of_filter in Hw as [Hlen Hw]. eauto.
    + intros (w & Hw & Hlen & ->). exists w. split; [done|].
      by apply list_elem_of_filter.
  - by apply py_split_tokens.
  - intros ws Hws. symmetry. by apply py_split_tokens.
  - apply set_eq. intros k. rewrite elem_of_list_to_set.
    destruct (Hord (map py_lower (filter (fun word => 4 < String.length word)
      (py_split "This is a test first point; second")))) as [_ ->].
    change (k ∈ ["first"; "point;"; "second"] ↔ k ∈ ({["first"; "point;"; "second"]} : gset string)).
    rewrite !elem_of_union, !elem_of_singleton, !elem_of_cons, elem_of_nil. tauto.
Qed.

Lemma extract_keywords_spec_witness :
  extract_keywords dedup "The QUICK brown Foxes, the quick foxes!"
    = ["brown"; "foxes,"; "quick"; "foxes!"] ∧
  list_to_set (extract_keywords dedup_rev "This is a test first point; second")
    = ({["first"; "point;"; "second"]} : gset string).
Proof.
  split; [vm_compute; reflexivity|].
  apply (extract_keywords_spec dedup_rev ""), dedup_rev_ok.
Defined.

(** Claim C5.  Whenever a run ends, the metadata of its output has
    [enhanced] true and [last_updated] the date of the run, which is written
    as four digits, a dash, two digits, a dash, two digits; and a run on a
    document of the data model, with a metadata mapping or none, does end. *)
Theorem metadata_spec now set_order data :
  valid_date now →
  (∀ out, enhance_data now set_order data = Ok out → metadata_stamped now out) ∧
  (valid_document data = true → ∃ out, enhance_data now set_order data = Ok out) ∧
  date_shape (strftime_Ymd now) = true.
Proof.
  intros Hnow. split_and!.
  - intros out H.
    apply enhance_data_Ok in H as (d & items & items' & md & -> & _ & _ & _ & ->).
    eexists. simpl. split_and!.
    + apply dict_getitem_Ok. by dict_simpl.
    + by dict_simpl.
    + by dict_simpl.
  - apply enhance_data_valid.
  - by apply strftime_Ymd_shape.
Qed.

Lemma metadata_spec_witness :
  valid_date sample_now ∧ valid_document sample_doc = true ∧
  getitem "metadata" sample_doc = Err (KeyError "metadata") ∧
  metadata_stamped sample_now sample_out ∧
  date_shape (strftime_Ymd sample_now) = true.
Proof.
  assert (Hnow : valid_date sample_now) by (unfold valid_date; simpl; lia).
  destruct (metadata_spec sample_now dedup sample_doc Hnow) as (Hout & _ & Hshape).
  split_and!; [exact Hnow|reflexivity|reflexivity| |exact Hshape].
  apply Hout. vm_compute. reflexivity.
Defined.

(** Claim C6.  A document with no [chapters] key, and with a metadata
    mapping or none, is enhanced without an error, and the output is the
    input with the two metadata fields written: every other key of the
    document and every other key of the metadata reads as before. *)
Theorem no_chapters_frame now set_order data :
  getitem "chapters" data = Err (KeyError "chapters") →
  metadata_typed data = true →
  ∃ d md md',
    data = JObj d ∧
    dict_get_default "metadata" (JObj []) d = JObj md ∧
    md' = dict_set "last_updated" (JStr (strftime_Ymd now))
            (dict_set "enhanced" (JBool true) md) ∧
    enhance_data now set_order data = Ok (JObj (dict_set "metadata" (JObj md') d)) ∧
    (∀ k, k ≠ "metadata" → dict_get k (dict_set "metadata" (JObj md') d) = dict_get k d) ∧
    (∀ k, k ≠ "enhanced" → k ≠ "last_updated" → dict_get k md' = dict_get k md).
Proof.
  intros Hch Hmd. destruct data as [| | | | | |d]; try done.
  simpl in Hch. apply dict_getitem_Err in Hch as [Hch _].
  assert (∃ md, dict_get_default "metadata" (JObj []) d = JObj md) as [md Hmd'].
  { unfold metadata_typed in Hmd. unfold dict_get_default.
    destruct (dict_get "metadata" d) as [[| | | | | |md]|]; try done; by eexists. }
  eexists d, md, _. split_and!; [done|done|reflexivity|..].
  - apply enhance_data_Ok. exists d, [], [], md. split_and!; try done.
    + unfold dict_get_default. by rewrite Hch.
    + by rewrite store_items_absent.
  - intros k Hk. by rewrite dict_get_set_ne.
  - intros k Hk1 Hk2. by rewrite !dict_get_set_ne.
Qed.

Lemma no_chapters_frame_witness :
  getitem "chapters" sample_bare = Err (KeyError "chapters") ∧
  metadata_typed sample_bare = true ∧
  enhance_data sample_now dedup sample_bare =
    Ok (JObj [("title", JStr "Law on New Topic");
              ("metadata", JObj [("source", JStr "gazette"); ("enhanced", JBool true);
                                 ("last_updated", JStr "2024-03-07")])]).
Proof.
  split_and!; [reflexivity..|].
  destruct (no_chapters_frame sample_now dedup sample_bare eq_refl eq_refl)
    as (d & md & md' & [= <-] & [= <-] & -> & H & _).
  exact H.
Defined.

(** Claim C7.  A second run on the output of a run (at any later date, with
    any order of the sets) ends without an error and leaves in every chapter
    the same [id] and in every article the same [id], [fullText] and [tags],
    and the same [keywords] up to their order. *)
Theorem enhance_idempotent now1 now2 ord1 ord2 data out1 :
  set_order_ok ord1 → set_order_ok ord2 →
  enhance_data now1 ord1 data = Ok out1 →
  ∃ out2, enhance_data now2 ord2 out1 = Ok out2 ∧ same_derived out1 out2.
Proof.
  intros Hord1 Hord2 H. apply enhance_data_Ok in H
    as (d & items & items' & md & -> & Hi & HF & Hmd & ->).
  destruct (loop_again "chapters" d (enhance_chapter ord1) (enhance_chapter ord2)
              same_chapter_fields items items') as (items2 & Hg & Hloop);
    [done..| |].
  { intros c c1. by apply enhance_chapter_again. }
  match goal with |- ∃ _, enhance_data _ _ (JObj ?D) = _ ∧ _ => set (D1 := D) end.
  destruct (Hloop D1) as [Hiter Hfields]; [unfold D1; by dict_simpl|].
  eexists. split.
  - apply enhance_data_Ok. eexists D1, items', items2, _.
    split_and!; [done..| |reflexivity].
    unfold dict_get_default, D1. by dict_simpl.
  - apply (Hfields D1); [done|]. by dict_simpl.
Qed.

Lemma enhance_idempotent_witness :
  ∃ out2, enhance_data sample_later dedup_rev sample_out = Ok out2 ∧
          same_derived sample_out out2.
Proof.
  apply (enhance_idempotent sample_now sample_later dedup dedup_rev sample_doc).
  - exact dedup_ok.
  - exact dedup_rev_ok.
  - vm_compute. reflexivity.
Defined.

(** Claim C8.  On a document of the data model in which some chapter has no
    [chapter_number], or some article no [article_number] or no [content],
    the transform raises the error of a missing key; the error leaves
    [enhance_database], which writes no file. *)
Theorem missing_field_raises now set_order data :
  document_typed data = true →
  document_required data = false →
  ∃ e, missing_key e ∧
    enhance_data now set_order data = Err e ∧
    ∀ files input_path output_path,
      files !! input_path = Some data →
      enhance_database now set_order input_path output_path files = Err e.
Proof.
  intros Hty Hreq.
  destruct (document_typed_inv data Hty) as (d & -> & Hi & Hcs).
  assert (∃ e, missing_key e ∧ enhance_data now set_order (JObj d) = Err e)
    as (e & Hmiss & He).
  { unfold enhance_data. rewrite Hi. simpl.
    destruct (for_each (enhance_chapter set_order) (list_field "chapters" (JObj d)))
      as [cs'|e] eqn:Hf; simpl.
    - exfalso. apply for_each_Ok in Hf.
      enough (document_required (JObj d) = true) by congruence.
      apply forallb_forall. intros c Hc.
      destruct (Forall2_Ok_In _ _ _ _ Hf Hc) as [c' Hc'].
      pose proof (enhance_chapter_typed set_order c (Hcs c Hc)) as H.
      rewrite Hc' in H. tauto.
    - apply for_each_Err in Hf as (c & Hc & Hf).
      pose proof (enhance_chapter_typed set_order c (Hcs c Hc)) as H.
      rewrite Hf in H. exists e. tauto. }
  exists e. split_and!; try done.
  intros files input_path output_path Hfile.
  unfold enhance_database. rewrite Hfile. cbn [from_option bind]. by rewrite He.
Qed.

Lemma missing_field_raises_witness :
  document_typed sample_broken = true ∧ document_required sample_broken = false ∧
  enhance_data sample_now dedup sample_broken = Err (KeyError "content").
Proof.
  split_and!; [reflexivity..|].
  destruct (missing_field_raises sample_now dedup sample_broken eq_refl eq_refl)
    as (e & _ & He & _).
  rewrite He. vm_compute in He. congruence.
Defined.

(** Claim C9.  After a run, the [tags] of every article is the list of one
    element, the [chapter_title] of its chapter, whatever [tags] the article
    had before. *)
Theorem tags_spec now set_order data out :
  enhance_data now set_order data = Ok out →
  each_chapter (fun c c' =>
      each_article (fun a a' =>
          ∃ title,
            getitem "chapter_title" c = Ok title ∧
            getitem "tags" a' = Ok (JArr [title]) ∧
            (∀ old, getitem "tags" a = Ok old →
               getitem "tags" a' = Ok (JArr [title])))
        c c')
    data out.
Proof.
  intros H. eapply each_chapter_impl; [by eapply enhance_data_chapters|].
  intros c c' Hc. simpl in Hc.
  apply enhance_chapter_articles in Hc as (d & cn & -> & _ & _ & _ & Harts).
  eapply each_article_impl; [exact Harts|].
  intros a a' Ha. simpl in Ha.
  apply enhance_article_fields in Ha
    as (da & number & content & points & title & -> & _ & _ & _ & Ht & _ & _ & _ & Htags).
  dict_simpl_in Ht.
  exists title. split_and!; try done.
  simpl. by apply dict_getitem_Ok.
Qed.

Lemma tags_spec_witness :
  enhance_data sample_now dedup sample_doc = Ok sample_out ∧
  each_chapter (fun c c' =>
      each_article (fun a a' =>
          ∃ title,
            getitem "chapter_title" c = Ok title ∧
            getitem "tags" a' = Ok (JArr [title]) ∧
            (∀ old, getitem "tags" a = Ok old →
               getitem "tags" a' = Ok (JArr [title])))
        c c')
    sample_doc sample_out.
Proof.
  split; [vm_compute; reflexivity|].
  apply (tags_spec sample_now dedup). vm_compute. reflexivity.
Defined.

(** Claim C10.  A chapter with no [articles] key is enhanced without an
    error, whether it has a [chapter_title] or not: it receives its id and
    nothing else changes.  In a run on a document of the data model such a
    chapter needs no [chapter_title], and is found in the output with its
    id. *)
Theorem chapter_without_articles set_order d number :
  dict_get "articles" d = None →
  dict_get "chapter_number" d = Some number →
  ∃ c',
    c' = JObj (dict_set "id" (JStr ("chap_" +:+ py_str number)) d) ∧
    enhance_chapter set_order (JObj d) = Ok c' ∧
    getitem "articles" c' = Err (KeyError "articles") ∧
    chapter_titled (JObj d) = true ∧
    ∀ now data,
      valid_document data = true → In (JObj d) (list_field "chapters" data) →
      ∃ out, enhance_data now set_order data = Ok out ∧
             In c' (list_field "chapters" out).
Proof.
  intros Harts Hnum. eexists. split; [reflexivity|].
  assert (Hrun : enhance_chapter set_order (JObj d) =
            Ok (JObj (dict_set "id" (JStr ("chap_" +:+ py_str number)) d))).
  { apply enhance_chapter_Ok. exists d, number, [], []. split_and!; try done.
    - unfold dict_get_default. by rewrite Harts.
    - rewrite store_items_absent; [done|]. by dict_simpl. }
  split_and!.
  - done.
  - simpl. unfold dict_getitem. dict_simpl. by rewrite Harts.
  - unfold chapter_titled, list_field. simpl. unfold dict_getitem.
    rewrite Harts. apply orb_true_r.
  - intros now data Hvalid Hin.
    destruct (enhance_data_valid now set_order data Hvalid) as [out Hout].
    exists out. split; [done|].
    assert (Hty : document_typed data = true).
    { unfold valid_document in Hvalid. rewrite !andb_true_iff in Hvalid. tauto. }
    pose proof (enhance_data_list_field _ _ _ _ Hty Hout) as HF.
    revert Hin. induction HF as [|c c1 cs cs1 Hc _ IH]; simpl; [done|].
    intros [->|Hin]; [left; congruence|right; auto].
Qed.

Lemma chapter_without_articles_witness :
  valid_document sample_headings = true ∧
  has_field "chapter_title" sample_heading = false ∧
  ∃ out, enhance_data sample_now dedup sample_headings = Ok out ∧
    In (JObj [("chapter_number", JStr "II"); ("id", JStr "chap_II")])
      (list_field "chapters" out).
Proof.
  split_and!; [reflexivity..|].
  destruct (chapter_without_articles dedup [("chapter_number", JStr "II")]
              (JStr "II") eq_refl eq_refl) as (c' & -> & _ & _ & _ & Hdoc).
  apply (Hdoc sample_now sample_headings); [reflexivity|].
  left. reflexivity.
Defined.

(** * Further properties of the transform *)

(** ** The lists of a document before and after a run *)

Lemma list_field_store_eq k (D D0 : dict) items :
  dict_get k D = dict_get k (store_items k items D0) →
  list_field k (JObj D) =
    match dict_get k D0 with Some (JArr _) => items | _ => [] end.
Proof.
  intros HD. unfold list_field. simpl. unfold dict_getitem. rewrite HD.
  unfold store_items. destruct (dict_get k D0) as [v|] eqn:Hk.
  - destruct v; rewrite ?dict_get_set_eq, ?Hk; done.
  - by rewrite Hk.
Qed.

Lemma py_iter_list_field k (d : dict) items items' (f : json → result json) :
  py_iter (dict_get_default k (JArr []) d) = Ok items →
  Forall2 (fun x y => f x = Ok y) items items' →
  (∀ s y, f (JStr s) ≠ Ok y) →
  list_field k (JObj d) = items ∧
  match dict_get k d with Some (JArr _) => items' | _ => [] end = items'.
Proof.
  intros Hi HF Hstr. unfold list_field, dict_get_default in *. simpl.
  unfold dict_getitem. destruct (dict_get k d) as [v|] eqn:Hk.
  - apply py_iter_cases in Hi as [->|[Hv Hitems]]; [done|].
    assert (items = []) as ->.
    { destruct HF as [|x y ? ? Hxy _]; [done|].
      destruct (Hitems x) as [s ->]; [by left|]. by apply Hstr in Hxy. }
    inversion HF; subst. destruct v as [| | | | |l|]; try done. by destruct (Hv l).
  - injection Hi as <-. by inversion HF.
Qed.

(** The chapters of the output of any run that ends are the enhanced
    chapters of the input, in the same order. *)
Lemma enhance_data_list_fields now set_order data out :
  enhance_data now set_order data = Ok out →
  Forall2 (fun c c' => enhance_chapter set_order c = Ok c')
    (list_field "chapters" data) (list_field "chapters" out).
Proof.
  intros H. apply enhance_data_Ok in H
    as (d & items & items' & md & -> & Hi & HF & _ & ->).
  destruct (py_iter_list_field "chapters" d items items' _ Hi HF) as [-> Hout];
    [done|].
  erewrite (list_field_store_eq "chapters" _ d items') by (by dict_simpl).
  by rewrite Hout.
Qed.

(** The same for the articles of a chapter. *)
Lemma enhance_chapter_list_fields set_order c c' :
  enhance_chapter set_order c = Ok c' →
  ∃ d number,
    c = JObj d ∧ dict_get "chapter_number" d = Some number ∧
    Forall2 (fun a a' =>
        enhance_article set_order ("chap_" +:+ py_str number)
          (dict_set "id" (JStr ("chap_" +:+ py_str number)) d) a = Ok a')
      (list_field "articles" c) (list_field "articles" c').
Proof.
  intros H. apply enhance_chapter_Ok in H
    as (d & number & items & items' & -> & Hn & Hi & HF & ->).
  exists d, number. split_and!; [done..|].
  destruct (py_iter_list_field "articles" d items items' _ Hi HF) as [-> Hout];
    [done|].
  erewrite (list_field_store_eq "articles" _ (dict_set "id" _ d) items') by done.
  rewrite dict_get_set_ne by done. by rewrite Hout.
Qed.

(** ** What a run keeps *)

(** Property X1.  A run changes two keys of the document at most: every key
    but [chapters] and [metadata] reads as before, [chapters] reads as
    before when it is no list, and every key of a metadata mapping but
    [enhanced] and [last_updated] reads as before. *)
Theorem document_frame now set_order data out :
  enhance_data now set_order data = Ok out →
  other_fields_kept ["chapters"; "metadata"] data out ∧
  ((∀ l, getitem "chapters" data ≠ Ok (JArr l)) →
   getitem "chapters" out = getitem "chapters" data) ∧
  (∀ md, getitem "metadata" data = Ok (JObj md) →
     ∃ md', getitem "metadata" out = Ok (JObj md') ∧
       ∀ k, k ≠ "enhanced" → k ≠ "last_updated" → dict_get k md' = dict_get k md).
Proof.
  intros H. apply enhance_data_Ok in H
    as (d & items & items' & md & -> & Hi & HF & Hmd & ->).
  split_and!.
  - intros k Hk. simpl. unfold dict_getitem.
    rewrite !not_elem_of_cons in Hk. destruct Hk as (Hk1 & Hk2 & _).
    by dict_simpl.
  - intros Hnl. simpl in *. unfold dict_getitem in *. dict_simpl.
    unfold store_items.
    destruct (dict_get "chapters" d) as [v|] eqn:Hd; [|by rewrite Hd].
    destruct v as [| | | | |l|]; try (by rewrite Hd).
    by destruct (Hnl l).
  - intros md0 Hmd0. simpl in Hmd0. apply dict_getitem_Ok in Hmd0.
    unfold dict_get_default in Hmd. rewrite Hmd0 in Hmd. injection Hmd as <-.
    eexists. split.
    + simpl. apply dict_getitem_Ok. by dict_simpl.
    + intros k Hk1 Hk2. by dict_simpl.
Qed.

Lemma document_frame_witness :
  getitem "title" sample_bare = Ok (JStr "Law on New Topic") ∧
  ∃ out, enhance_data sample_now dedup sample_bare = Ok out ∧
    getitem "title" out = Ok (JStr "Law on New Topic").
Proof.
  split; [reflexivity|]. eexists. split; [vm_compute; reflexivity|].
  eapply (document_frame sample_now dedup sample_bare); [vm_compute; reflexivity|].
  rewrite !not_elem_of_cons. split_and!; try done. apply not_elem_of_nil.
Defined.

(** Property X2.  A run changes two keys of a chapter at most, [id] and
    [articles], and four keys of an article at most, [id], [fullText],
    [keywords] and [tags]; the chapters and the articles keep their number
    and their order. *)
Theorem record_frame now set_order data out :
  enhance_data now set_order data = Ok out →
  Forall2 (fun c c' =>
      other_fields_kept ["id"; "articles"] c c' ∧
      Forall2 (other_fields_kept ["id"; "fullText"; "keywords"; "tags"])
        (list_field "articles" c) (list_field "articles" c'))
    (list_field "chapters" data) (list_field "chapters" out).
Proof.
  intros H. eapply Forall2_impl; [by eapply enhance_data_list_fields|].
  intros c c' Hc. simpl in Hc. split.
  - apply enhance_chapter_Ok in Hc
      as (d & number & items & items' & -> & _ & _ & _ & ->).
    intros k Hk. rewrite !not_elem_of_cons in Hk. destruct Hk as (Hk1 & Hk2 & _).
    simpl. unfold dict_getitem. by dict_simpl.
  - apply enhance_chapter_list_fields in Hc as (d & number & -> & _ & HF).
    eapply Forall2_impl; [exact HF|].
    intros a a' Ha. simpl in Ha. apply enhance_article_Ok in Ha
      as (da & ? & ? & ? & ? & -> & _ & _ & _ & _ & ->).
    intros k Hk. rewrite !not_elem_of_cons in Hk.
    destruct Hk as (Hk1 & Hk2 & Hk3 & Hk4 & _).
    simpl. unfold dict_getitem. by dict_simpl.
Qed.

Lemma record_frame_witness :
  Forall2 (fun c c' =>
      other_fields_kept ["id"; "articles"] c c' ∧
      Forall2 (other_fields_kept ["id"; "fullText"; "keywords"; "tags"])
        (list_field "articles" c) (list_field "articles" c'))
    (list_field "chapters" sample_doc) (list_field "chapters" sample_out).
Proof.
  apply (record_frame sample_now dedup). vm_compute. reflexivity.
Defined.

(** Property X3.  After a run the [keywords] of every article are the
    keywords [extract_keywords] draws from the [fullText] the run has
    written in that article. *)
Theorem keywords_of_fullText now set_order data out :
  enhance_data now set_order data = Ok out →
  Forall (fun c' =>
      Forall (fun a' =>
          ∃ text,
            getitem "fullText" a' = Ok (JStr text) ∧
            getitem "keywords" a' =
              Ok (JArr (map JStr (extract_keywords set_order text))))
        (list_field "articles" c'))
    (list_field "chapters" out).
Proof.
  intros H. apply enhance_data_list_fields in H.
  eapply Forall2_Forall_r; [exact H|]. apply Forall_true.
  intros c c' Hc. simpl in Hc.
  apply enhance_chapter_list_fields in Hc as (d & number & -> & _ & HF).
  eapply Forall2_Forall_r; [exact HF|]. apply Forall_true.
  intros a a' Ha. simpl in Ha.
  apply enhance_article_fields in Ha
    as (da & ? & content & points & ? & _ & _ & _ & _ & _ & _ & Hft & Hkw & _).
  eauto.
Qed.

Lemma keywords_of_fullText_witness :
  Forall (fun c' =>
      Forall (fun a' =>
          ∃ text,
            getitem "fullText" a' = Ok (JStr text) ∧
            getitem "keywords" a' =
              Ok (JArr (map JStr (extract_keywords dedup text))))
        (list_field "articles" c'))
    (list_field "chapters" sample_out).
Proof.
  apply (keywords_of_fullText sample_now dedup sample_doc). vm_compute. reflexivity.
Defined.

(** ** The order of the keys *)

Lemma dict_get_Some_keys k v (d : dict) : dict_get k d = Some v → k ∈ keys d.
Proof.
  induction d as [|[k' v'] d IH]; simpl; [done|].
  destruct (decide (k' = k)) as [->|Hne]; intros H.
  - by left.
  - right. auto.
Qed.

Lemma keys_dict_set k v (d : dict) : keys (dict_set k v d) = add_key k (keys d).
Proof.
  unfold add_key, keys. induction d as [|[k' v'] d IH]; simpl; [done|].
  destruct (decide (k' = k)) as [->|Hne]; simpl.
  - destruct (decide (k ∈ k :: map fst d)) as [_|Hn]; [done|].
    destruct Hn. by left.
  - rewrite IH.
    destruct (decide (k ∈ map fst d)) as [Hin|Hnin],
             (decide (k ∈ k' :: map fst d)) as [Hin'|Hnin']; try done.
    + destruct Hnin'. by right.
    + apply elem_of_cons in Hin' as [->|Hin']; done.
Qed.

Lemma keys_store_items k items (d : dict) : keys (store_items k items d) = keys d.
Proof.
  unfold store_items. destruct (dict_get k d) as [v|] eqn:Hk; [|done].
  destruct v; try done. rewrite keys_dict_set. unfold add_key.
  rewrite decide_True; [done|]. by eapply dict_get_Some_keys.
Qed.

Lemma add_key_NoDup k ks : NoDup ks → NoDup (add_key k ks).
Proof.
  intros Hnd. unfold add_key. destruct (decide (k ∈ ks)) as [Hin|Hnin]; [done|].
  apply NoDup_app. split_and!; [done| |apply NoDup_singleton].
  intros x Hx Hx'. apply list_elem_of_singleton in Hx'. by subst.
Qed.

(** Property X4.  A run keeps every key at its place and puts the keys it
    adds last, in the order it writes them: [metadata] in the document,
    [enhanced] and [last_updated] in the metadata, [id] in a chapter, and
    [id], [fullText], [keywords], [tags] in an article.  Keys that are
    distinct stay distinct. *)
Theorem key_order now set_order data out :
  enhance_data now set_order data = Ok out →
  keys_of out = add_key "metadata" (keys_of data) ∧
  (NoDup (keys_of data) → NoDup (keys_of out)) ∧
  (∃ md', getitem "metadata" out = Ok (JObj md') ∧
     keys md' =
       add_key "last_updated"
         (add_key "enhanced"
            (match getitem "metadata" data with Ok md => keys_of md | Err _ => [] end))) ∧
  Forall2 (fun c c' =>
      keys_of c' = add_key "id" (keys_of c) ∧
      Forall2 (fun a a' =>
          keys_of a' =
            add_key "tags" (add_key "keywords" (add_key "fullText"
              (add_key "id" (keys_of a)))))
        (list_field "articles" c) (list_field "articles" c'))
    (list_field "chapters" data) (list_field "chapters" out).
Proof.
  intros H. pose proof (enhance_data_list_fields _ _ _ _ H) as HF.
  apply enhance_data_Ok in H
    as (d & items & items' & md & -> & _ & _ & Hmd & ->).
  assert (Hkeys : keys (dict_set "metadata"
            (JObj (dict_set "last_updated" (JStr (strftime_Ymd now))
                     (dict_set "enhanced" (JBool true) md)))
            (store_items "chapters" items' d)) = add_key "metadata" (keys d)).
  { by rewrite keys_dict_set, keys_store_items. }
  split_and!.
  - done.
  - simpl. rewrite Hkeys. apply add_key_NoDup.
  - eexists. split.
    + simpl. apply dict_getitem_Ok. by dict_simpl.
    + rewrite !keys_dict_set. simpl. unfold dict_getitem, dict_get_default in *.
      destruct (dict_get "metadata" d); by simplify_eq.
  - eapply Forall2_impl; [exact HF|]. intros c c' Hc. simpl in Hc. split.
    + apply enhance_chapter_Ok in Hc
        as (dc & number & its & its' & -> & _ & _ & _ & ->).
      simpl. by rewrite keys_store_items, keys_dict_set.
    + apply enhance_chapter_list_fields in Hc as (dc & number & -> & _ & HFa).
      eapply Forall2_impl; [exact HFa|]. intros a a' Ha. simpl in Ha.
      apply enhance_article_Ok in Ha
        as (da & ? & ? & ? & ? & -> & _ & _ & _ & _ & ->).
      simpl. by rewrite !keys_dict_set.
Qed.

Lemma key_order_witness :
  keys_of sample_out = ["chapters"; "metadata"] ∧
  Forall2 (fun c c' =>
      keys_of c' = add_key "id" (keys_of c) ∧
      Forall2 (fun a a' =>
          keys_of a' =
            add_key "tags" (add_key "keywords" (add_key "fullText"
              (add_key "id" (keys_of a)))))
        (list_field "articles" c) (list_field "articles" c'))
    (list_field "chapters" sample_doc) (list_field "chapters" sample_out).
Proof.
  destruct (key_order sample_now dedup sample_doc sample_out) as (Hk & _ & _ & HF).
  - vm_compute. reflexivity.
  - split; [exact Hk|exact HF].
Defined.

(** ** The outcome of a run on a document of the data model *)

Lemma for_each_app_Err {A B} (f : A → result B) l1 x l2 e :
  (∀ y, In y l1 → ∃ z, f y = Ok z) → f x = Err e →
  for_each f (l1 ++ x :: l2) = Err e.
Proof.
  intros Hok Hx. induction l1 as [|y l1 IH]; simpl.
  - by rewrite Hx.
  - destruct (Hok y) as [z Hz]; [by left|]. rewrite Hz. simpl.
    rewrite IH; [done|]. intros; apply Hok. by right.
Qed.

Lemma for_each_some_Err {A B} (f : A → result B) l e :
  (∀ x, In x l → (∃ y, f x = Ok y) ∨ f x = Err e) →
  (∃ x, In x l ∧ f x = Err e) →
  for_each f l = Err e.
Proof.
  induction l as [|x l IH]; simpl; intros Hall (x0 & Hin & Hx0); [done|].
  destruct (Hall x) as [[y Hy]|Hx]; [by left| |by rewrite Hx].
  rewrite Hy. simpl. rewrite IH; [done|auto|].
  destruct Hin as [->|Hin]; [congruence|eauto].
Qed.

Lemma forallb_false_In {A} (p : A → bool) l :
  forallb p l = false → ∃ x, In x l ∧ p x = false.
Proof.
  induction l as [|x l IH]; simpl; [done|].
  destruct (p x) eqn:Hx; simpl.
  - intros H. destruct (IH H) as (y & Hy & Hpy). eauto.
  - eauto.
Qed.

Lemma list_field_cons_inv k data x l :
  list_field k data = x :: l →
  ∃ d, data = JObj d ∧ dict_get k d = Some (JArr (x :: l)).
Proof.
  unfold list_field. destruct data as [| | | | | |d]; try done. simpl.
  unfold dict_getitem.
  destruct (dict_get k d) as [[| | | | |l'|]|] eqn:Hd; try done.
  intros ->. by exists d.
Qed.

(** An article with its two fields, in a chapter with no title. *)
Lemma enhance_article_untitled set_order chapter_id chapter a :
  article_typed a = true → article_required a = true →
  dict_get "chapter_title" chapter = None →
  enhance_article set_order chapter_id chapter a = Err (KeyError "chapter_title").
Proof.
  intros Hty Hreq Hno.
  pose proof (enhance_article_typed set_order chapter_id chapter a Hty) as H.
  destruct a as [| | | | | |d]; try done.
  destruct (typed_points d Hty) as [points Hp].
  unfold article_required, has_field in Hreq. simpl in Hreq.
  unfold enhance_article, dict_getitem, dict_get_default in *.
  destruct (dict_get "article_number" d) as [number|]; [|done]. simpl.
  dict_simpl.
  destruct (dict_get "content" d) as [content|]; [|done]. simpl.
  rewrite Hp. simpl. dict_simpl. simpl. by rewrite Hno.
Qed.

Lemma enhance_chapter_untitled set_order c :
  chapter_typed c = true → chapter_required c = true → chapter_titled c = false →
  enhance_chapter set_order c = Err (KeyError "chapter_title").
Proof.
  intros Hty Hreq Htitled.
  destruct (chapter_typed_inv c Hty) as (d & -> & Hi & Harts).
  unfold chapter_required in Hreq. apply andb_prop in Hreq as [Hnum Hreq].
  rewrite forallb_forall in Hreq.
  unfold chapter_titled in Htitled. apply orb_false_elim in Htitled as [Hno Hne].
  unfold has_field in Hnum, Hno. simpl in Hnum, Hno. unfold dict_getitem in *.
  destruct (list_field "articles" (JObj d)) as [|a arts] eqn:Hl; [done|].
  unfold enhance_chapter, dict_getitem, dict_get_default in *.
  destruct (dict_get "chapter_number" d) as [number|]; [|done]. simpl.
  dict_simpl. rewrite Hi. simpl.
  rewrite enhance_article_untitled; [done|apply Harts; by left|apply Hreq; by left|].
  dict_simpl. by destruct (dict_get "chapter_title" d).
Qed.

(** The loop over the chapters of a document that has all its fields. *)
Lemma chapters_loop_Ok set_order data :
  document_typed data = true → document_required data = true →
  forallb chapter_titled (list_field "chapters" data) = true →
  ∃ cs', for_each (enhance_chapter set_order) (list_field "chapters" data) = Ok cs'.
Proof.
  intros Hty Hreq Htitled.
  destruct (document_typed_inv data Hty) as (d & -> & Hi & Hcs).
  unfold document_required in Hreq. rewrite forallb_forall in Hreq, Htitled.
  apply for_each_total. intros c Hc.
  pose proof (enhance_chapter_typed set_order c (Hcs c Hc)) as H.
  destruct (enhance_chapter set_order c) as [c'|e]; [by eexists|].
  destruct H as [_ [H|H]]; [rewrite Hreq in H|rewrite Htitled in H]; done.
Qed.

(** A run that ends on a document of the data model shows that the
    document had all its fields. *)
Lemma enhance_data_Ok_valid now set_order data out :
  document_typed data = true →
  enhance_data now set_order data = Ok out → valid_document data = true.
Proof.
  intros Hty H. unfold valid_document. rewrite Hty. simpl.
  destruct (document_typed_inv data Hty) as (d & -> & Hi & Hcs).
  apply enhance_data_Ok in H as (d' & items & items' & md & [= <-] & Hi' & HF & Hmd & _).
  rewrite Hi in Hi'. injection Hi' as <-.
  assert (Hch : ∀ c, In c (list_field "chapters" (JObj d)) →
            chapter_required c = true ∧ chapter_titled c = true).
  { intros c Hc. destruct (Forall2_Ok_In _ _ _ _ HF Hc) as [c' Hc'].
    pose proof (enhance_chapter_typed set_order c (Hcs c Hc)) as H.
    by rewrite Hc' in H. }
  rewrite !andb_true_iff. split_and!.
  - unfold metadata_typed, dict_get_default in *.
    destruct (dict_get "metadata" d) as [m|]; by subst.
  - apply forallb_forall. intros c Hc. by apply Hch.
  - apply forallb_forall. intros c Hc. by apply Hch.
Qed.

(** Property X5.  On a document of the data model a run ends without an
    error exactly when every chapter has its [chapter_number], every article
    its [article_number] and [content], every chapter with an article its
    [chapter_title], and the metadata is a mapping or absent. *)
Theorem typed_success_iff now set_order data :
  document_typed data = true →
  (∃ out, enhance_data now set_order data = Ok out) ↔ valid_document data = true.
Proof.
  intros Hty. split; [|apply enhance_data_valid].
  intros [out H]. by eapply enhance_data_Ok_valid.
Qed.

Lemma typed_success_iff_witness :
  document_typed sample_headings = true ∧ valid_document sample_headings = true ∧
  document_typed sample_broken = true ∧
  ¬ ∃ out, enhance_data sample_now dedup sample_broken = Ok out.
Proof.
  split_and!; [reflexivity..|].
  intros Hout. apply (typed_success_iff sample_now dedup sample_broken) in Hout.
  - vm_compute in Hout. discriminate.
  - reflexivity.
Defined.

(** Property X6.  On a document of the data model with every
    [chapter_number], [article_number] and [content], in which some chapter
    with an article has no [chapter_title], a run raises the error of the
    missing key [chapter_title]. *)
Theorem missing_title_raises now set_order data :
  document_typed data = true → document_required data = true →
  forallb chapter_titled (list_field "chapters" data) = false →
  enhance_data now set_order data = Err (KeyError "chapter_title").
Proof.
  intros Hty Hreq Htitled.
  destruct (document_typed_inv data Hty) as (d & -> & Hi & Hcs).
  unfold document_required in Hreq. rewrite forallb_forall in Hreq.
  unfold enhance_data. rewrite Hi. simpl.
  rewrite (for_each_some_Err _ _ (KeyError "chapter_title")); [done| |].
  - intros c Hc. destruct (chapter_titled c) eqn:Ht.
    + left. pose proof (enhance_chapter_typed set_order c (Hcs c Hc)) as H.
      destruct (enhance_chapter set_order c) as [c'|e]; [by eexists|].
      destruct H as [_ [H|H]]; [rewrite Hreq in H|]; congruence.
    + right. apply enhance_chapter_untitled; auto.
  - destruct (forallb_false_In chapter_titled
                (list_field "chapters" (JObj d)) Htitled) as (c & Hc & Ht).
    exists c. split; [done|]. apply enhance_chapter_untitled; auto.
Qed.

Lemma missing_title_raises_witness :
  document_typed sample_untitled = true ∧ document_required sample_untitled = true ∧
  enhance_data sample_now dedup sample_untitled = Err (KeyError "chapter_title").
Proof.
  split_and!; [reflexivity..|].
  apply (missing_title_raises sample_now dedup sample_untitled); reflexivity.
Defined.

(** Property X7.  The chapters are processed in the order of the document
    and the first error ends the run: when the chapters before [c] are
    enhanced without an error and [c] raises [e], the run raises [e],
    whatever the later chapters and the metadata are. *)
Theorem first_error_wins now set_order data cs1 c cs2 e :
  list_field "chapters" data = cs1 ++ c :: cs2 →
  Forall (fun x => ∃ y, enhance_chapter set_order x = Ok y) cs1 →
  enhance_chapter set_order c = Err e →
  enhance_data now set_order data = Err e.
Proof.
  intros Hl Hcs1 Hc.
  assert (∃ x l, cs1 ++ c :: cs2 = x :: l) as (x & l & Hxl).
  { destruct cs1; simpl; eauto. }
  rewrite Hxl in Hl. apply list_field_cons_inv in Hl as (d & -> & Hd).
  unfold enhance_data, dict_get_default. rewrite Hd, <- Hxl. simpl.
  rewrite (for_each_app_Err _ cs1 c cs2 e); [done| |done].
  intros y Hy. rewrite Forall_forall in Hcs1. apply Hcs1.
  by apply list_elem_of_In.
Qed.

Lemma first_error_wins_witness :
  enhance_data sample_now dedup sample_mixed = Err (KeyError "chapter_number").
Proof.
  apply (first_error_wins sample_now dedup sample_mixed [sample_chapter]
           (JObj [("chapter_title", JStr "Penalties")]) [JInt 5]).
  - reflexivity.
  - constructor; [|constructor]. eexists. vm_compute. reflexivity.
  - reflexivity.
Defined.

(** Property X8.  On a document of the data model with all the fields the
    chapters need, whose [metadata] is there and is no mapping, a run raises
    a type error (after it has gone through all the chapters). *)
Theorem metadata_not_mapping now set_order data :
  document_typed data = true → document_required data = true →
  forallb chapter_titled (list_field "chapters" data) = true →
  metadata_typed data = false →
  enhance_data now set_order data = Err TypeError.
Proof.
  intros Hty Hreq Htitled Hmd.
  destruct (chapters_loop_Ok set_order data Hty Hreq Htitled) as [cs' Hcs'].
  destruct (document_typed_inv data Hty) as (d & -> & Hi & _).
  unfold enhance_data. rewrite Hi. simpl. rewrite Hcs'. simpl.
  unfold metadata_typed in Hmd. unfold dict_getitem. dict_simpl.
  destruct (dict_get "metadata" d) as [m|] eqn:Hm; [|done].
  dict_simpl. rewrite Hm. by destruct m.
Qed.

Lemma metadata_not_mapping_witness :
  enhance_data sample_now dedup sample_bad_metadata = Err TypeError.
Proof.
  apply (metadata_not_mapping sample_now dedup sample_bad_metadata); reflexivity.
Defined.

(** ** Running again on the output *)

Lemma dict_set_id k v (d : dict) : dict_get k d = Some v → dict_set k v d = d.
Proof.
  induction d as [|[k' v'] d IH]; simpl; [done|].
  destruct (decide (k' = k)) as [->|Hne]; intros H.
  - by simplify_eq.
  - by rewrite IH.
Qed.

Lemma store_items_again k items (D D0 : dict) :
  dict_get k D = dict_get k (store_items k items D0) →
  store_items k items D = D.
Proof.
  intros HD. unfold store_items in *.
  destruct (dict_get k D0) as [v|] eqn:Hk.
  - destruct v; rewrite ?dict_get_set_eq, ?Hk in HD; rewrite HD; try done.
    by apply dict_set_id.
  - by rewrite Hk in HD; rewrite HD.
Qed.

Lemma Forall2_fixed {A} (f g : A → result A) l l1 :
  Forall2 (fun x y => f x = Ok y) l l1 →
  (∀ x y, f x = Ok y → g y = Ok y) →
  Forall2 (fun y z => g y = Ok z) l1 l1.
Proof. induction 1; intros Hstep; constructor; eauto. Qed.

Lemma py_iter_again k (D D0 : dict) items items' (f : json → result json) :
  py_iter (dict_get_default k (JArr []) D0) = Ok items →
  Forall2 (fun x y => f x = Ok y) items items' →
  (∀ s y, f (JStr s) ≠ Ok y) →
  dict_get k D = dict_get k (store_items k items' D0) →
  py_iter (dict_get_default k (JArr []) D) = Ok items'.
Proof.
  intros Hi HF Hstr HD.
  destruct (loop_again k D0 f Ok (fun _ _ => True) items items' Hi HF Hstr)
    as (items2 & _ & Hloop); [by eauto|].
  by destruct (Hloop D HD).
Qed.

(** An enhanced article is left as it is by a second pass with the same id,
    title and order of the set. *)
Lemma enhance_article_fixed set_order chapter_id chapter chapter' a a1 :
  dict_get "chapter_title" chapter' = dict_get "chapter_title" chapter →
  enhance_article set_order chapter_id chapter a = Ok a1 →
  enhance_article set_order chapter_id chapter' a1 = Ok a1.
Proof.
  intros Htitle H. apply enhance_article_Ok in H
    as (d & number & content & points & title & -> & Hn & Hc & Hp & Ht & ->).
  match goal with |- enhance_article _ _ _ (JObj ?D0) = _ => set (D := D0) end.
  apply enhance_article_Ok.
  exists D, number, content, points, title.
  split_and!; [reflexivity|unfold D; by dict_simpl..| |by rewrite Htitle|].
  { unfold dict_get_default, D in *. by dict_simpl. }
  f_equal.
  rewrite (dict_set_id "id" _ D) by (unfold D; by dict_simpl).
  rewrite (dict_set_id "fullText" _ D) by (unfold D; by dict_simpl).
  rewrite (dict_set_id "keywords" _ D) by (unfold D; by dict_simpl).
  by rewrite (dict_set_id "tags" _ D) by (unfold D; by dict_simpl).
Qed.

Lemma enhance_chapter_fixed set_order c c1 :
  enhance_chapter set_order c = Ok c1 → enhance_chapter set_order c1 = Ok c1.
Proof.
  intros H. apply enhance_chapter_Ok in H
    as (d & number & items & items' & -> & Hn & Hi & HF & ->).
  set (cid := "chap_" +:+ py_str number) in *.
  set (c0 := dict_set "id" (JStr cid) d) in *.
  set (D1 := store_items "articles" items' c0).
  assert (Hid : dict_set "id" (JStr cid) D1 = D1).
  { apply dict_set_id. unfold D1, c0. by dict_simpl. }
  apply enhance_chapter_Ok. exists D1, number, items', items'.
  fold cid. rewrite Hid. split_and!.
  - done.
  - unfold D1, c0. by dict_simpl.
  - eapply (py_iter_again _ D1 c0); [|exact HF|done|done].
    unfold dict_get_default in *. unfold c0. by dict_simpl.
  - eapply Forall2_fixed; [exact HF|]. intros a a1.
    apply enhance_article_fixed. unfold D1, c0. by dict_simpl.
  - by rewrite (store_items_again "articles" items' D1 c0).
Qed.

Lemma rerun_fixed_point_data now set_order data out :
  enhance_data now set_order data = Ok out →
  enhance_data now set_order out = Ok out.
Proof.
  intros H. apply enhance_data_Ok in H
    as (d & items & items' & md & -> & Hi & HF & Hmd & ->).
  set (M := dict_set "last_updated" (JStr (strftime_Ymd now))
              (dict_set "enhanced" (JBool true) md)).
  set (D1 := dict_set "metadata" (JObj M) (store_items "chapters" items' d)).
  assert (Hch : dict_get "chapters" D1 = dict_get "chapters" (store_items "chapters" items' d)).
  { unfold D1. by dict_simpl. }
  apply enhance_data_Ok. exists D1, items', items', M. split_and!.
  - done.
  - by eapply (py_iter_again _ D1 d).
  - eapply Forall2_fixed; [exact HF|]. intros c c1. apply enhance_chapter_fixed.
  - unfold dict_get_default, D1. by dict_simpl.
  - f_equal. rewrite (store_items_again "chapters" items' D1 d) by done.
    rewrite (dict_set_id "enhanced") by (unfold M; by dict_simpl).
    rewrite (dict_set_id "last_updated") by (unfold M; by dict_simpl).
    symmetry. apply dict_set_id. unfold D1. by dict_simpl.
Qed.

(** Property X9.  The output of a run is a fixed point of the transform: a
    second run on it, at the same date and with the same order of the sets,
    ends and returns it unchanged, and so does any number of further runs. *)
Theorem rerun_fixed_point now set_order data out (n : nat) :
  enhance_data now set_order data = Ok out →
  Nat.iter n (fun r => bind r (enhance_data now set_order)) (Ok out) = Ok out.
Proof.
  intros H. induction n as [|n IH]; simpl; [done|].
  rewrite IH. simpl. by eapply rerun_fixed_point_data.
Qed.

Lemma rerun_fixed_point_witness :
  enhance_data sample_now dedup sample_out = Ok sample_out.
Proof.
  apply (rerun_fixed_point sample_now dedup sample_doc sample_out 1).
  vm_compute. reflexivity.
Defined.

(** ** The files *)



(** ** Keywords *)

Lemma lower_char_idem c : lower_char (lower_char c) = lower_char c.
Proof. destruct c as [[] [] [] [] [] [] [] []]; reflexivity. Qed.

Lemma is_space_lower_char c : is_space (lower_char c) = is_space c.
Proof. destruct c as [[] [] [] [] [] [] [] []]; reflexivity. Qed.

Lemma py_lower_idem s : py_lower (py_lower s) = py_lower s.
Proof. induction s as [|c s IH]; simpl; [done|]. by rewrite lower_char_idem, IH. Qed.

Lemma py_lower_length s : String.length (py_lower s) = String.length s.
Proof. induction s as [|c s IH]; simpl; [done|]. by rewrite IH. Qed.


Lemma py_lower_nil s : py_lower s = "" ↔ s = "".
Proof. by destruct s. Qed.

Lemma py_lower_word w : word w → word (py_lower w).
Proof.
  intros [Hne Hw]. split; [by rewrite py_lower_nil|].
  clear Hne. induction w as [|c w IH]; simpl in *; [done|].
  apply andb_prop in Hw as [Hc Hw]. by rewrite is_space_lower_char, Hc, IH.
Qed.

Lemma tokens_words s ws : tokens s ws → Forall word ws.
Proof.
  induction 1 as [sp H|sp w H Hw|sp w c rest ws H Hw Hc _ IH].
  - constructor.
  - constructor; [done|constructor].
  - by constructor.
Qed.

Lemma py_split_words text : Forall word (py_split text).
Proof. apply (tokens_words text). by apply py_split_tokens. Qed.



(** The words a generator yields to the set, for a text. *)
Lemma extract_keywords_members set_order text k :
  set_order_ok set_order →
  k ∈ extract_keywords set_order text ↔
  ∃ w, w ∈ py_split text ∧ 4 < String.length w ∧ k = py_lower w.
Proof.
  intros Hord. unfold extract_keywords.
  destruct (Hord (map py_lower
    (filter (fun word => 4 < String.length word) (py_split text)))) as [_ ->].
  rewrite list_elem_of_fmap. split.
  - intros (w & -> & Hw). apply list_elem_of_filter in Hw as [Hlen Hw]. eauto.
  - intros (w & Hw & Hlen & ->). exists w. split; [done|].
    by apply list_elem_of_filter.
Qed.

(** Property X11.  Every keyword is in lower case, is longer than 4
    characters and holds no whitespace; there are no more keywords than
    words in the text. *)
Theorem keywords_shape set_order text :
  set_order_ok set_order →
  Forall (fun k => py_lower k = k ∧ 4 < String.length k ∧ word k)
    (extract_keywords set_order text) ∧
  length (extract_keywords set_order text) ≤ length (py_split text).
Proof.
  intros Hord. split.
  - apply Forall_forall. intros k Hk.
    apply extract_keywords_members in Hk as (w & Hw & Hlen & ->); [|done].
    split_and!.
    + apply py_lower_idem.
    + by rewrite py_lower_length.
    + apply py_lower_word.
      pose proof (py_split_words text) as Hws. rewrite Forall_forall in Hws. auto.
  - unfold extract_keywords.
    set (ws := map py_lower (filter (fun word => 4 < String.length word) (py_split text))).
    destruct (Hord ws) as [Hnd Hin].
    transitivity (length ws).
    + apply submseteq_length, NoDup_submseteq; [done|]. intros x. by rewrite Hin.
    + unfold ws. rewrite length_map. apply length_filter.
Qed.

Lemma keywords_shape_witness :
  Forall (fun k => py_lower k = k ∧ 4 < String.length k ∧ word k)
    (extract_keywords dedup_rev sample_sentence) ∧
  length (extract_keywords dedup_rev sample_sentence) ≤ length (py_split sample_sentence).
Proof. apply (keywords_shape dedup_rev sample_sentence), dedup_rev_ok. Defined.


(** Words separated by a whitespace character. *)
Lemma split_go_sep cur s c t :
  is_space c = true →
  split_go cur (s +:+ String c t) = split_go cur s ++ split_go "" t.
Proof.
  intros Hc. revert cur. induction s as [|c' s IH]; intros cur.
  - simpl. rewrite Hc. by destruct (decide (cur = "")).
  - rewrite app_cons. simpl. destruct (is_space c').
    + destruct (decide (cur = "")); simpl; by rewrite IH.
    + apply IH.
Qed.

(** Property X13.  The keywords of two texts put together with a space
    between them are the keywords of the one and the keywords of the other:
    so the keywords of an article are those of its content and those of
    its joined points. *)
Theorem keywords_of_parts set_order s t k :
  set_order_ok set_order →
  k ∈ extract_keywords set_order (s +:+ " " +:+ t) ↔
  k ∈ extract_keywords set_order s ∨ k ∈ extract_keywords set_order t.
Proof.
  intros Hord. rewrite !extract_keywords_members by done.
  unfold py_split. change (" " +:+ t) with (String " " t).
  rewrite (split_go_sep "" s " " t) by done.
  setoid_rewrite elem_of_app. split.
  - intros (w & [Hw|Hw] & Hlen & ->); [left|right]; eauto.
  - intros [(w & Hw & Hlen & ->)|(w & Hw & Hlen & ->)]; eauto 6.
Qed.

Lemma keywords_of_parts_witness :
  "second" ∈ extract_keywords dedup ("This is a test" +:+ " " +:+ "first point; second").
Proof.
  apply (keywords_of_parts dedup "This is a test" "first point; second" "second").
  - exact dedup_ok.
  - right. vm_compute. apply list_elem_of_In. simpl. auto.
Defined.

(** Property X14.  Splitting and joining again with single spaces gives the
    same words: the words of a text, joined with a space, split into
    themselves; so do any words, that is, strings with a character and no
    whitespace. *)
Theorem split_join_words ws text :
  (Forall word ws → py_split (join " " ws) = ws) ∧
  py_split (join " " (py_split text)) = py_split text.
Proof.
  assert (H : ∀ l, Forall word l → py_split (join " " l) = l).
  { unfold py_split. induction l as [|x l IH]; intros Hl; [done|].
    inversion Hl as [|? ? [Hne Hx] Hl']; subst.
    destruct l as [|y l].
    - simpl. rewrite <- (app_nil_r x) at 1. rewrite split_go_word by done.
      change ("" +:+ x) with x. simpl. by rewrite decide_False.
    - change (join " " (x :: y :: l)) with (x +:+ String " " (join " " (y :: l))).
      rewrite split_go_sep by done. rewrite IH by done.
      rewrite <- (app_nil_r x) at 1. rewrite split_go_word by done.
      change ("" +:+ x) with x. simpl. by rewrite decide_False. }
  split; [apply H|]. apply H, py_split_words.
Qed.

Lemma split_join_words_witness :
  py_split (join " " ["first"; "point;"; "second"]) = ["first"; "point;"; "second"].
Proof.
  apply (split_join_words ["first"; "point;"; "second"] "").
  repeat constructor; done.
Defined.

(** Property X15.  A text has no word exactly when it is made of whitespace
    (the empty text too), and no keyword exactly when none of its words is
    longer than 4 characters. *)
Theorem no_keywords set_order text :
  set_order_ok set_order →
  (py_split text = [] ↔ blank text) ∧
  (extract_keywords set_order text = [] ↔
   Forall (fun w => String.length w ≤ 4) (py_split text)).
Proof.
  intros Hord. split.
  - rewrite <- py_split_tokens. split.
    + by inversion 1.
    + apply tokens_blank.
  - rewrite Forall_forall. split.
    + intros Hnil w Hw. destruct (decide (String.length w ≤ 4)) as [|Hlen]; [done|].
      assert (Hk : py_lower w ∈ extract_keywords set_order text).
      { apply extract_keywords_members; [done|]. exists w. split_and!; [done|lia|done]. }
      rewrite Hnil in Hk. by apply not_elem_of_nil in Hk.
    + intros Hall. destruct (extract_keywords set_order text) as [|k ks] eqn:Hks; [done|].
      assert (Hk : k ∈ extract_keywords set_order text) by (rewrite Hks; by left).
      apply extract_keywords_members in Hk as (w & Hw & Hlen & _); [|done].
      specialize (Hall w Hw). lia.
Qed.

Lemma no_keywords_witness :
  py_split "   " = [] ∧ extract_keywords dedup "This is a test" = [].
Proof.
  destruct (no_keywords dedup "   " dedup_ok) as [Hblank _].
  destruct (no_keywords dedup "This is a test" dedup_ok) as [_ Hshort].
  split.
  - apply Hblank. reflexivity.
  - apply Hshort. vm_compute. repeat constructor.
Defined.

(** ** Identifiers *)











(** ** The data model is kept *)

Lemma enhance_article_keeps_typed set_order chapter_id chapter a a' :
  enhance_article set_order chapter_id chapter a = Ok a' →
  article_typed a = true → article_typed a' = true.
Proof.
  intros H. apply enhance_article_Ok in H
    as (d & ? & ? & ? & ? & -> & _ & _ & _ & _ & ->).
  unfold article_typed. by dict_simpl.
Qed.

Lemma enhance_chapter_keeps_typed set_order c c' :
  enhance_chapter set_order c = Ok c' →
  chapter_typed c = true → chapter_typed c' = true.
Proof.
  intros H Hty. pose proof (enhance_chapter_list_fields _ _ _ H)
    as (d & number & -> & _ & HF).
  destruct (chapter_typed_inv _ Hty) as (d' & [= <-] & _ & Harts).
  apply enhance_chapter_Ok in H
    as (d' & number' & items & items' & [= <-] & _ & _ & _ & ->).
  assert (Hall : ∀ a', In a' (list_field "articles"
              (JObj (store_items "articles" items'
                (dict_set "id" (JStr ("chap_" +:+ py_str number')) d)))) →
            article_typed a' = true).
  { revert Harts. induction HF as [|a a' arts arts' Ha _ IH]; simpl; [done|].
    intros Harts a0 [<-|Hin].
    - eapply enhance_article_keeps_typed; [exact Ha|]. apply Harts. by left.
    - apply IH; auto. }
  revert Hall. unfold chapter_typed in *. unfold list_field. simpl.
  unfold dict_getitem, store_items. dict_simpl.
  destruct (dict_get "articles" d) as [[| | | | |arts|]|] eqn:Hd; try done.
  - dict_simpl. intros Hall. by apply forallb_forall.
  - dict_simpl. by rewrite Hd.
Qed.

Lemma enhance_data_keeps_typed now set_order data out :
  enhance_data now set_order data = Ok out →
  document_typed data = true → document_typed out = true.
Proof.
  intros H Hty. pose proof (enhance_data_list_fields _ _ _ _ H) as HF.
  destruct (document_typed_inv _ Hty) as (d & -> & _ & Hcs).
  apply enhance_data_Ok in H
    as (d' & items & items' & md & [= <-] & _ & _ & _ & ->).
  assert (Hall : ∀ c', In c' (list_field "chapters"
              (JObj (dict_set "metadata"
                (JObj (dict_set "last_updated" (JStr (strftime_Ymd now))
                         (dict_set "enhanced" (JBool true) md)))
                (store_items "chapters" items' d)))) →
            chapter_typed c' = true).
  { revert Hcs. induction HF as [|c c' cs cs' Hc _ IH]; simpl; [done|].
    intros Hcs c0 [<-|Hin].
    - eapply enhance_chapter_keeps_typed; [exact Hc|]. apply Hcs. by left.
    - apply IH; auto. }
  revert Hall. unfold document_typed in *. unfold list_field. simpl.
  unfold dict_getitem, store_items. dict_simpl.
  destruct (dict_get "chapters" d) as [[| | | | |cs|]|] eqn:Hd; try done.
  - dict_simpl. intros Hall. by apply forallb_forall.
  - by rewrite Hd.
Qed.

(** Property X18.  The output of a run on a document of the data model is
    again a document of the data model with all the fields a run reads: the
    run can be repeated on it. *)
Theorem output_valid now set_order data out :
  document_typed data = true →
  enhance_data now set_order data = Ok out →
  valid_document out = true.
Proof.
  intros Hty H. eapply (enhance_data_Ok_valid now set_order out out).
  - by eapply enhance_data_keeps_typed.
  - by eapply rerun_fixed_point_data.
Qed.

Lemma output_valid_witness : valid_document sample_out = true.
Proof.
  apply (output_valid sample_now dedup sample_doc); [reflexivity|].
  vm_compute. reflexivity.
Defined.

(** ** The errors of a run *)

Lemma str_join_Err sep v e : str_join sep v = Err e → e = TypeError.
Proof.
  unfold str_join. intros H. apply bind_Err in H as [H|(items & _ & H)].
  - by destruct v; simplify_eq/=.
  - apply bind_Err in H as [H|(strs & _ & H)]; [|done].
    apply for_each_Err in H as (x & _ & Hx). by destruct x; simplify_eq/=.
Qed.

Lemma enhance_article_Err set_order chapter_id chapter a e :
  enhance_article set_order chapter_id chapter a = Err e →
  e = TypeError ∨ missing_key e.
Proof.
  destruct a as [| | | | | |d]; try (intros [= <-]; by left).
  unfold enhance_article, dict_getitem, dict_get_default.
  destruct (dict_get "article_number" d) as [number|]; simpl.
  2:{ intros [= <-]. right. exists "article_number". simpl. auto. }
  dict_simpl.
  destruct (dict_get "content" d) as [content|]; simpl.
  2:{ intros [= <-]. right. exists "content". simpl. auto. }
  destruct (str_join "; " _) as [points|e'] eqn:Hp; simpl.
  2:{ intros [= <-]. left. by eapply str_join_Err. }
  dict_simpl. simpl.
  destruct (dict_get "chapter_title" chapter) as [title|]; simpl; [done|].
  intros [= <-]. right. exists "chapter_title". simpl. auto 6.
Qed.

Lemma enhance_chapter_Err set_order c e :
  enhance_chapter set_order c = Err e → e = TypeError ∨ missing_key e.
Proof.
  destruct c as [| | | | | |d]; try (intros [= <-]; by left).
  unfold enhance_chapter, dict_getitem.
  destruct (dict_get "chapter_number" d) as [number|]; simpl.
  2:{ intros [= <-]. right. exists "chapter_number". simpl. auto. }
  intros H. apply bind_Err in H as [H|(items & _ & H)].
  - left. destruct (dict_get_default _ _ _); by simplify_eq/=.
  - apply bind_Err in H as [H|(items' & _ & H)]; [|done].
    apply for_each_Err in H as (a & _ & Ha). by eapply enhance_article_Err.
Qed.

Lemma enhance_data_Err now set_order data e :
  enhance_data now set_order data = Err e →
  (e = AttributeError ∧ ∀ d, data ≠ JObj d) ∨
  ((∃ d, data = JObj d) ∧ (e = TypeError ∨ missing_key e)).
Proof.
  destruct data as [| | | | | |d]; try (intros [= <-]; by left).
  intros H. right. split; [by eexists|].
  unfold enhance_data in H.
  apply bind_Err in H as [H|(items & _ & H)].
  { left. destruct (dict_get_default _ _ _); by simplify_eq/=. }
  apply bind_Err in H as [H|(items' & _ & H)].
  { apply for_each_Err in H as (c & _ & Hc). by eapply enhance_chapter_Err. }
  left. revert H. unfold dict_getitem. dict_simpl.
  destruct (dict_get "metadata" d) as [m|] eqn:Hm; simpl.
  - dict_simpl. rewrite Hm. simpl. destruct m; simpl; try (by intros [= <-]).
    dict_simpl. by simpl.
  - dict_simpl. simpl. dict_simpl. by simpl.
Qed.

(** Property X19.  A run raises three kinds of error and no other: an
    attribute error, exactly when the document is no record; a type error;
    or the error of a missing key, which is [chapter_number],
    [article_number], [content] or [chapter_title]. *)
Theorem error_taxonomy now set_order data :
  ((∀ d, data ≠ JObj d) ↔ enhance_data now set_order data = Err AttributeError) ∧
  (∀ e, enhance_data now set_order data = Err e →
        e = AttributeError ∨ e = TypeError ∨ missing_key e).
Proof.
  split; [split|].
  - intros Hno. destruct data as [| | | | | |d]; try done. by destruct (Hno d).
  - intros H. apply enhance_data_Err in H as [[_ H]|[_ [H|(k & H & _)]]]; done.
  - intros e H. apply enhance_data_Err in H as [[-> _]|[_ [H|H]]]; auto.
Qed.

Lemma error_taxonomy_witness :
  enhance_data sample_now dedup (JArr [sample_chapter]) = Err AttributeError ∧
  (KeyError "content" = AttributeError ∨ KeyError "content" = TypeError ∨
   missing_key (KeyError "content")).
Proof.
  destruct (error_taxonomy sample_now dedup (JArr [sample_chapter])) as [[Hattr _] _].
  destruct (error_taxonomy sample_now dedup sample_broken) as [_ Hkinds].
  split.
  - by apply Hattr.
  - apply Hkinds. vm_compute. reflexivity.
Defined.
